(** * real-time_settings.py: a shallow embedding and its checked properties

    The script toggles a desktop Linux machine between a real-time mode
    and the normal mode.  It is embedded here function by function:
    Python values are a small inductive type, the file system is a finite
    map from paths to file contents, and the effects of the script
    (exceptions, the mutable class-level cache, files, subprocesses,
    [print] and [logging]) are threaded through one state/error/trace
    monad. *)

From stdpp Require Import gmap strings list pretty.
From Stdlib Require Import Ascii String.

Set Warnings "-register-all".


(** ** Python string primitives used by the script *)

Module PyStr.

Definition dquote : ascii := "034"%char.
Definition squote : ascii := "039"%char.
Definition backslash : ascii := "092"%char.
Definition newline : ascii := "010"%char.
Definition tab : ascii := "009"%char.
Definition cr : ascii := "013"%char.

Definition char (c : ascii) : string := String c EmptyString.

(** [sep.join(parts)] *)
Fixpoint join (sep : string) (parts : list string) : string :=
  match parts with
  | [] => ""
  | [p] => p
  | p :: rest => p +:+ sep +:+ join sep rest
  end.

(** [s.split(sep)] for a one-character separator: never the empty list. *)
Fixpoint split (sep : ascii) (s : string) : list string :=
  match s with
  | EmptyString => [EmptyString]
  | String c s' =>
      if Ascii.eqb c sep then EmptyString :: split sep s'
      else match split sep s' with
           | [] => [char c]
           | w :: ws => String c w :: ws
           end
  end.

(** [l[1:-3]]: the stop index [len(l) - 3] is clamped at 0. *)
Definition slice_1_m3 {A} (l : list A) : list A :=
  drop 1 (take (List.length l - 3) l).

(** [c in s] for a character. *)
Fixpoint has_char (c : ascii) (s : string) : bool :=
  match s with
  | EmptyString => false
  | String d s' => Ascii.eqb c d || has_char c s'
  end.

(** [sub in s] *)
Fixpoint contains (sub s : string) : bool :=
  String.prefix sub s ||
  match s with
  | EmptyString => false
  | String _ s' => contains sub s'
  end.

(** [s.endswith(suffix)] *)
Definition endswith (s suffix : string) : bool :=
  String.prefix (String.rev suffix) (String.rev s).

(** [s.startswith(prefix)] *)
Definition startswith (s prefix : string) : bool := String.prefix prefix s.

(** [handle.readline()] on a file freshly opened in text mode: the first
    line with its line end, or the whole content when there is none.  Text
    mode reads every line end (LF, CR LF, CR) as one newline character. *)
Fixpoint readline (s : string) : string :=
  match s with
  | EmptyString => EmptyString
  | String c s' =>
      if Ascii.eqb c newline || Ascii.eqb c cr then char newline
      else String c (readline s')
  end.

(** The characters [str.strip()] removes (ASCII white space). *)
Definition is_space (c : ascii) : bool :=
  let n := N_of_ascii c in
  ((9 <=? n) && (n <=? 13) || (28 <=? n) && (n <=? 32))%N.

Fixpoint lstrip (s : string) : string :=
  match s with
  | EmptyString => EmptyString
  | String c s' => if is_space c then lstrip s' else s
  end.

(** [s.strip()] *)
Definition strip (s : string) : string :=
  String.rev (lstrip (String.rev (lstrip s))).

(** [s.rfind(c)] for a character: [-1] when absent. *)
Fixpoint rfind_from (c : ascii) (i : Z) (found : Z) (s : string) : Z :=
  match s with
  | EmptyString => found
  | String d s' =>
      rfind_from c (i + 1) (if Ascii.eqb c d then i else found) s'
  end.
Definition rfind (c : ascii) (s : string) : Z := rfind_from c 0 (-1) s.

(** [s[:n]] for [0 <= n] *)
Fixpoint take_str (n : nat) (s : string) : string :=
  match n, s with
  | S n', String c s' => String c (take_str n' s')
  | _, _ => EmptyString
  end.

(** [s[i:i+1] != "."], the test of the loop in [genericpath._splitext]. *)
Definition not_dot_at (s : string) (i : nat) : bool :=
  match String.get i s with
  | Some c => negb (Ascii.eqb c ".")
  | None => true
  end.

(** The loop of [genericpath._splitext]: is some character in
    [s[from:dot]] not a dot? *)
Fixpoint some_non_dot (s : string) (from : nat) (count : nat) : bool :=
  match count with
  | O => false
  | S k => not_dot_at s from || some_non_dot s (S from) k
  end.

(** [posixpath.splitext(p)[0]] *)
Definition splitext_root (p : string) : string :=
  let sepIndex := rfind "/" p in
  let dotIndex := rfind "." p in
  if (sepIndex <? dotIndex)%Z then
    let filenameIndex := Z.to_nat (sepIndex + 1) in
    if some_non_dot p filenameIndex (Z.to_nat dotIndex - filenameIndex)
    then take_str (Z.to_nat dotIndex) p
    else p
  else p.

(** [posixpath.join(a, b)] *)
Definition path_join (a b : string) : string :=
  if startswith b "/" then b
  else if String.eqb a "" || endswith a "/" then a +:+ b
  else a +:+ "/" +:+ b.

(** [fmt % n] for a format with the single directive [%i]. *)
Fixpoint format_i (fmt : string) (n : Z) : string :=
  match fmt with
  | String "%" (String "i" rest) => pretty n +:+ rest
  | String c rest => String c (format_i rest n)
  | EmptyString => EmptyString
  end.

Definition hex_digit (n : N) : ascii :=
  match String.get (N.to_nat n) "0123456789abcdef" with
  | Some c => c
  | None => "0"%char
  end.

(** One character of [repr(s)] with quote character [q]. *)
Definition repr_char (q c : ascii) : string :=
  let n := N_of_ascii c in
  if Ascii.eqb c q || Ascii.eqb c backslash then String backslash (char c)
  else if Ascii.eqb c tab then String backslash "t"
  else if Ascii.eqb c newline then String backslash "n"
  else if Ascii.eqb c cr then String backslash "r"
  else if ((n <? 32) || (n =? 127))%N
       then String backslash
              (String "x" (String (hex_digit (n / 16)) (char (hex_digit (n mod 16)))))
  else char c.

Fixpoint repr_chars (q : ascii) (s : string) : string :=
  match s with
  | EmptyString => EmptyString
  | String c s' => repr_char q c +:+ repr_chars q s'
  end.

(** [repr(s)] of an ASCII string: single quotes unless the string has
    a single quote and no double quote. *)
Definition repr (s : string) : string :=
  let q := if has_char squote s && negb (has_char dquote s)
           then dquote else squote in
  String q (repr_chars q s +:+ char q).

End PyStr.

(** ** Python values *)

(** The values the script handles.  A [dict] keeps its items in insertion
    order, as Python's does; keys are strings (JSON object keys).
    Floating-point numbers, which the script neither produces nor
    inspects, are left out. *)
Inductive pyval :=
  | PNone
  | PBool (b : bool)
  | PInt (z : Z)
  | PStr (s : string)
  | PTuple (l : list pyval)
  | PList (l : list pyval)
  | PDict (items : list (string * pyval)).

(** [bool(v)] *)
Definition truthy (v : pyval) : bool :=
  match v with
  | PNone => false
  | PBool b => b
  | PInt z => negb (z =? 0)%Z
  | PStr s => negb (String.eqb s "")
  | PTuple l | PList l => negb (bool_decide (List.length l = 0))
  | PDict items => negb (bool_decide (List.length items = 0))
  end.

(** [a or b] *)
Definition py_or (a b : pyval) : pyval := if truthy a then a else b.

(** [repr(v)] *)
Fixpoint py_repr (v : pyval) : string :=
  match v with
  | PNone => "None"
  | PBool true => "True"
  | PBool false => "False"
  | PInt z => pretty z
  | PStr s => PyStr.repr s
  | PTuple [x] => "(" +:+ py_repr x +:+ ",)"
  | PTuple l => "(" +:+ PyStr.join ", " (map py_repr l) +:+ ")"
  | PList l => "[" +:+ PyStr.join ", " (map py_repr l) +:+ "]"
  | PDict items =>
      "{" +:+ PyStr.join ", "
                (map (λ kv, PyStr.repr kv.1 +:+ ": " +:+ py_repr kv.2) items)
          +:+ "}"
  end.

(** [str(v)] *)
Definition py_str (v : pyval) : string :=
  match v with
  | PStr s => s
  | _ => py_repr v
  end.

(** Items of a [dict]: [d.get(key)], and [d[key] = value], which replaces
    the value in place or appends a new item. *)
Fixpoint items_get (items : list (string * pyval)) (key : string) : option pyval :=
  match items with
  | [] => None
  | (k, v) :: rest => if String.eqb k key then Some v else items_get rest key
  end.

Fixpoint items_set (items : list (string * pyval)) (key : string) (value : pyval)
  : list (string * pyval) :=
  match items with
  | [] => [(key, value)]
  | (k, v) :: rest =>
      if String.eqb k key then (k, value) :: rest
      else (k, v) :: items_set rest key value
  end.

(** ** Exceptions, effects and the state of a run *)

Inductive exn :=
  | AttributeError (owner attr : string)
  | TypeError
  | ValueError
  | FileNotFoundError (path : string)
  | CalledProcessError
  | SystemExit (code : Z).

Inductive result (A : Type) :=
  | Ok (a : A)
  | Raise (e : exn).
Arguments Ok {A} a.
Arguments Raise {A} e.

Inductive loglevel := DEBUG | INFO | WARNING | ERROR.

(** What a run does to the outside world, in order. *)
Inductive event :=
  | EPrint (line : string)                  (* [print(line)] *)
  | ELog (level : loglevel) (msg : string)  (* a call of the root logger *)
  | ERead (path : string)                   (* a file opened and read *)
  | EWrite (path : string) (data : string)  (* a file opened with "w+" and written *)
  | EProc (argv : list string).             (* a subprocess run *)

(** The mutable state: the files, and the class attribute
    [ActionBase._available_services_cache] ([None] while
    [hasattr(ActionBase, "_available_services_cache")] is false). *)
Record world := World {
  fs : gmap string string;
  _available_services_cache : option (list string);
}.

(** What the script asks of the operating system and cannot change. *)
Record Env := {
  gettempdir : string;
  which : string → option string;              (* [shutil.which] *)
  check_output : list string → result string;  (* stdout of a command, or its failure *)
  call_status : list string → Z;               (* exit status of [subprocess.call] *)
  cpu_count : nat;
  uname_release : string;
  uname_version : string;
  getuid : Z;
  has_pstates : bool;    (* [path.exists("/sys/devices/system/cpu/intel_pstate")] *)
}.

(** [json.load] and [json.dump] of the standard library, on the text of a
    file: [json_load] is [None] where [json.load] raises [ValueError]. *)
Record JsonLib := {
  json_load : string → option pyval;
  json_dump : pyval → string;
}.

(** The parsed command line: the type of [cli_args]. *)
Inductive on_off := On | Off.

Record Namespace := {
  debug : bool;
  verbose : bool;
  simulate : bool;
  list_ : bool;                 (* [cli_args.list] *)
  ignore : list string;
  on_or_off : option on_off;
}.

(** The monad of the script: state, exceptions and the trace of events. *)
Definition M (A : Type) : Type := world → result A * world * list event.

Definition ret {A} (a : A) : M A := λ w, (Ok a, w, []).

Definition bind {A B} (m : M A) (k : A → M B) : M B :=
  λ w, match m w with
       | (Ok a, w1, t1) =>
           match k a w1 with
           | (r, w2, t2) => (r, w2, t1 ++ t2)
           end
       | (Raise e, w1, t1) => (Raise e, w1, t1)
       end.

Definition raise {A} (e : exn) : M A := λ w, (Raise e, w, []).

Definition emit (e : event) : M unit := λ w, (Ok tt, w, [e]).

Definition get_world : M world := λ w, (Ok w, w, []).

Definition put_world (w' : world) : M unit := λ _, (Ok tt, w', []).

Global Instance M_ret : MRet M := @ret.
Global Instance M_bind : MBind M := λ A B k m, bind m k.

(** [for x in l: body(x)] *)
Fixpoint for_each {A} (l : list A) (body : A → M unit) : M unit :=
  match l with
  | [] => ret tt
  | x :: rest => body x;; for_each rest body
  end.

(** [try: m  except (ValueError, FileNotFoundError): handler] *)
Definition try_except_value_or_missing {A} (m : M A) (handler : M A) : M A :=
  λ w, match m w with
       | (Raise ValueError, w1, t1) | (Raise (FileNotFoundError _), w1, t1) =>
           match handler w1 with
           | (r, w2, t2) => (r, w2, t1 ++ t2)
           end
       | other => other
       end.

(** The result, final state and trace of a computation. *)
Definition res_of {A} (x : result A * world * list event) : result A := x.1.1.
Definition world_of {A} (x : result A * world * list event) : world := x.1.2.
Definition trace_of {A} (x : result A * world * list event) : list event := x.2.

(** [exit(code)] raises [SystemExit]. *)
Definition exit {A} (code : Z) : M A := raise (SystemExit code).

Definition lift_result {A} (r : result A) : M A :=
  match r with
  | Ok a => ret a
  | Raise e => raise e
  end.

(** The exit status of the interpreter for the outcome of the script. *)
Definition exit_status {A} (r : result A) : Z :=
  match r with
  | Ok _ => 0
  | Raise (SystemExit code) => code
  | Raise _ => 1
  end.

(** ** Files, subprocesses and output *)

(** [with open(p) as handle: ...] reading the content. *)
Definition open_read (p : string) : M string :=
  λ w, match fs w !! p with
       | Some data => (Ok data, w, [ERead p])
       | None => (Raise (FileNotFoundError p), w, [])
       end.

(** [with open(p, "w+") as handle: handle.write(data)] *)
Definition open_write (p data : string) : M unit :=
  λ w, (Ok tt, World (<[p := data]> (fs w)) (_available_services_cache w),
        [EWrite p data]).

(** [path.isfile(p)] *)
Definition isfile (p : string) : M bool :=
  λ w, (Ok (bool_decide (is_Some (fs w !! p))), w, []).

Definition print (line : string) : M unit := emit (EPrint line).

(** [logging.debug], [logging.info], [logging.warn] (the alias of
    [logging.warning]) and [logging.error] on the root logger. *)
Definition log (level : loglevel) (msg : string) : M unit :=
  emit (ELog level msg).

(** The threshold the script gives the root logger: [--verbose] is
    applied after [--debug]; the default is [WARNING]. *)
Definition logger_level (debug verbose : bool) : loglevel :=
  if verbose then INFO else if debug then DEBUG else WARNING.

Definition as_str (v : pyval) : M string :=
  match v with
  | PStr s => ret s
  | _ => raise TypeError
  end.

(** The strings of a command line; [None] when an element is not a string. *)
Fixpoint argv_of (l : list pyval) : option (list string) :=
  match l with
  | [] => Some []
  | PStr s :: rest => cons s <$> argv_of rest
  | _ :: _ => None
  end.

(** [list.remove(x)]: drops the first occurrence; [None] stands for the
    [ValueError] on an absent element. *)
Fixpoint list_remove `{EqDecision A} (x : A) (l : list A) : option (list A) :=
  match l with
  | [] => None
  | y :: rest => if decide (y = x) then Some rest else cons y <$> list_remove x rest
  end.

(** ** The settings modules *)

Inductive cls :=
  | ActionBase
  | CheckForRealTimeKernel
  | Cron
  | Tlp
  | FrequencyScaling
  | IntelPState.

Global Instance cls_eq_dec : EqDecision cls.
Proof. solve_decision. Defined.

Definition __name__ (c : cls) : string :=
  match c with
  | ActionBase => "ActionBase"
  | CheckForRealTimeKernel => "CheckForRealTimeKernel"
  | Cron => "Cron"
  | Tlp => "Tlp"
  | FrequencyScaling => "FrequencyScaling"
  | IntelPState => "IntelPState"
  end.

(** The classes in the order the script appends them to [settings_modules]. *)
Definition settings_modules : list cls :=
  [CheckForRealTimeKernel; Cron; Tlp; FrequencyScaling; IntelPState].

(** The method resolution order: every module derives from [ActionBase]. *)
Definition mro (c : cls) : list cls :=
  match c with
  | ActionBase => [ActionBase]
  | _ => [c; ActionBase]
  end.

(** The functions handed to [execute_safely]. *)
Inductive callable :=
  | subprocess_call                          (* [subprocess.call] *)
  | shutil_copyfile                          (* [shutil.copyfile] *)
  | bound_store_current_and_replace          (* [self._store_current_and_replace] *)
  | bound_restore_or_set.                    (* [self._restore_or_set] *)

Definition callable_module (f : callable) : string :=
  match f with
  | subprocess_call => "subprocess"
  | shutil_copyfile => "shutil"
  | bound_store_current_and_replace | bound_restore_or_set => "__main__"
  end.

Definition callable_name (f : callable) : string :=
  match f with
  | subprocess_call => "call"
  | shutil_copyfile => "copyfile"
  | bound_store_current_and_replace => "_store_current_and_replace"
  | bound_restore_or_set => "_restore_or_set"
  end.

(** [as_pretty_string] of [execute_safely]; no call site of the script
    passes keyword arguments, so the last join is over no items. *)
Definition as_pretty_string (function : callable) (args : list pyval) : string :=
  callable_module function +:+ "." +:+ callable_name function +:+ "("
    +:+ PyStr.join ", " (map py_repr args) +:+ ", " +:+ PyStr.join ", " [] +:+ ")".

(** The ignore loop of the driver: for each registered module whose name
    is in the ignore list, remove the module from the copy and the name
    from the ignore list. *)
Fixpoint assort_ignored (modules unignored : list cls) (ignore : list string)
  : result (list cls * list string) :=
  match modules with
  | [] => Ok (unignored, ignore)
  | settings_module :: rest =>
      let settings_module_name := __name__ settings_module in
      if bool_decide (settings_module_name ∈ ignore) then
        match list_remove settings_module unignored,
              list_remove settings_module_name ignore with
        | Some unignored', Some ignore' => assort_ignored rest unignored' ignore'
        | _, _ => Raise ValueError
        end
      else assort_ignored rest unignored ignore
  end.

(** [ActionBase.TEMPFILE] *)
Definition TEMPFILE (env : Env) : string :=
  PyStr.path_join (gettempdir env) "real-time_settings".

Section Program.

Variable env : Env.
Variable json : JsonLib.
Variable cli_args : Namespace.

(** *** Class attributes *)

(** The data attributes each class body defines.  [IntelPState] defines
    three; none of them, and no attribute of [ActionBase], is called
    [PSTATE_BASE_PATH]. *)
Definition class_dict (c : cls) : list (string * pyval) :=
  match c with
  | ActionBase =>
      [("TEMPFILE", PStr (TEMPFILE env))]
  | FrequencyScaling =>
      let CPUFREQ_BASE_PATH := "/sys/devices/system/cpu/cpu%i/cpufreq" in
      [("CPUFREQ_BASE_PATH", PStr CPUFREQ_BASE_PATH);
       ("CPUFREQ_MIN", PStr (PyStr.path_join CPUFREQ_BASE_PATH "cpuinfo_min_freq"));
       ("CPUFREQ_MAX", PStr (PyStr.path_join CPUFREQ_BASE_PATH "cpuinfo_max_freq"));
       ("CPUFREQ_MIN_ALLOWED",
        PStr (PyStr.path_join CPUFREQ_BASE_PATH "scaling_min_freq"));
       ("HAS_PSTATES", PBool (has_pstates env))]
  | IntelPState =>
      [("PSTATE_NO_TURBO_FILE_NAME",
        PStr "/sys/devices/system/cpu/intel_pstate/no_turbo");
       ("PSTATE_NO_TURBO_ON", PInt 0);
       ("PSTATE_NO_TURBO_OFF_DEFAULT", PInt 1)]
  | CheckForRealTimeKernel | Cron | Tlp => []
  end.

Fixpoint lookup_mro (classes : list cls) (name : string) : option pyval :=
  match classes with
  | [] => None
  | c :: rest =>
      match items_get (class_dict c) name with
      | Some v => Some v
      | None => lookup_mro rest name
      end
  end.

(** [self.name] on an instance of [c]: instances have no attributes of
    their own, so the lookup walks the classes. *)
Definition getattr (c : cls) (name : string) : M pyval :=
  match lookup_mro (mro c) name with
  | Some v => ret v
  | None => raise (AttributeError (__name__ c) name)
  end.

(** *** The state store *)

Definition _load_all_from_temp (self : cls) : M pyval :=
  try_except_value_or_missing
    (tempfile ← getattr self "TEMPFILE" ≫= as_str;
     text ← open_read tempfile;
     match json_load json text with
     | Some obj => ret obj
     | None => raise ValueError
     end)
    (ret (PDict [])).

(** [obj.get(key, default)]: only a [dict] has the method. *)
Definition py_get (obj : pyval) (key : string) (default : pyval) : M pyval :=
  match obj with
  | PDict items =>
      ret (match items_get items key with
           | Some v => v
           | None => default
           end)
  | _ => raise (AttributeError "object" "get")
  end.

(** [obj[key] = value] for a string key: only a [dict] accepts it. *)
Definition py_setitem (obj : pyval) (key : string) (value : pyval) : M pyval :=
  match obj with
  | PDict items => ret (PDict (items_set items key value))
  | _ => raise TypeError
  end.

(** The body evaluates the lookup and has no [return]: the call yields
    [None]. *)
Definition load_from_temp (self : cls) (key : string) (default : pyval) : M pyval :=
  _ ← (obj ← _load_all_from_temp self; py_get obj key default);
  ret PNone.

Definition store_to_temp (self : cls) (key : string) (value : pyval) : M pyval :=
  obj ← _load_all_from_temp self;
  obj ← py_setitem obj key value;
  tempfile ← getattr self "TEMPFILE" ≫= as_str;
  open_write tempfile (json_dump json obj);;
  ret PNone.

(** *** The turbo-boost module's helpers *)

(** [path.join(a, b)] on values: both must be strings. *)
Definition path_join (a b : pyval) : M string :=
  a ← as_str a;
  b ← as_str b;
  ret (PyStr.path_join a b).

Definition _store_current_and_replace (self : cls) (file_name value : pyval)
  : M pyval :=
  base ← getattr self "PSTATE_BASE_PATH";
  file_path ← path_join base file_name;
  text ← open_read file_path;
  let content := PyStr.strip (PyStr.readline text) in
  store_to_temp self file_path (PStr content);;
  open_write file_path (py_str value);;
  ret PNone.

Definition _restore_or_set (self : cls) (file_name default : pyval)
  : M pyval :=
  base ← getattr self "PSTATE_BASE_PATH";
  file_path ← path_join base file_name;
  key ← as_str file_name;
  loaded ← load_from_temp self key PNone;
  open_write file_path (py_str (py_or loaded default));;
  ret PNone.

(** *** The command runner *)

(** [shutil.copyfile(src, dst)] *)
Definition copyfile (src dst : string) : M pyval :=
  data ← open_read src;
  open_write dst data;;
  ret (PStr dst).

(** [subprocess.call(args)] *)
Definition call (args : pyval) : M pyval :=
  match args with
  | PTuple l | PList l =>
      match argv_of l with
      | Some argv => emit (EProc argv);; ret (PInt (call_status env argv))
      | None => raise TypeError
      end
  | PStr program => emit (EProc [program]);; ret (PInt (call_status env [program]))
  | _ => raise TypeError
  end.

(** The call of [function] on [args], for the functions the script
    hands to [execute_safely]; [self] is the instance a bound method is
    bound to. *)
Definition apply_callable (self : cls) (function : callable) (args : list pyval)
  : M pyval :=
  match function, args with
  | subprocess_call, [a] => call a
  | shutil_copyfile, [PStr src; PStr dst] => copyfile src dst
  | bound_store_current_and_replace, [file_name; value] =>
      _store_current_and_replace self file_name value
  | bound_restore_or_set, [file_name; default] =>
      _restore_or_set self file_name default
  | _, _ => raise TypeError
  end.

Definition execute_safely (self : cls) (function : callable) (args : list pyval)
  : M pyval :=
  if simulate cli_args then
    print ("simulating - would execute: " +:+ as_pretty_string function args);;
    ret PNone
  else
    log DEBUG ("executing " +:+ as_pretty_string function args);;
    apply_callable self function args.

(** *** The service controller *)

Definition set_services_cache (cache : list string) : M unit :=
  λ w, (Ok tt, World (fs w) (Some cache), []).

(** [ActionBase._available_services_cache.append(service_name)] *)
Definition append_services_cache (service_name : string) : M unit :=
  λ w, match _available_services_cache w with
       | Some cache => (Ok tt, World (fs w) (Some (cache ++ [service_name])), [])
       | None => (Raise (AttributeError "ActionBase" "_available_services_cache"), w, [])
       end.

Definition get_services_cache : M (list string) :=
  λ w, match _available_services_cache w with
       | Some cache => (Ok cache, w, [])
       | None => (Raise (AttributeError "ActionBase" "_available_services_cache"), w, [])
       end.

(** [subprocess.check_output(argv, universal_newlines=True)] *)
Definition run_check_output (argv : list string) : M string :=
  emit (EProc argv);; lift_result (check_output env argv).

(** The body of [if not hasattr(ActionBase, "_available_services_cache")]:
    the cache exists, empty, before [systemctl] is run. *)
Definition fill_services_cache : M unit :=
  set_services_cache [];;
  output ← run_check_output ["systemctl"; "list-unit-files"];
  for_each (PyStr.slice_1_m3 (PyStr.split PyStr.newline output)) (λ line,
    let service_name :=
      PyStr.splitext_root (hd "" (PyStr.split " " line)) in
    if negb (String.eqb service_name "") then
      append_services_cache service_name
    else ret tt);;
  cache ← get_services_cache;
  log DEBUG ("found services " +:+ py_repr (PList (PStr <$> cache))).

Definition service (self : cls) (name action : string) : M unit :=
  w ← get_world;
  (if _available_services_cache w is None then fill_services_cache
   else ret tt);;
  cache ← get_services_cache;
  if negb (bool_decide (name ∈ cache)) then
    log INFO ("service '" +:+ name +:+ "' does not seem to exist")
  else
    let systemctl :=
      match which env "systemctl" with
      | Some p => PStr p
      | None => PNone
      end in
    execute_safely self subprocess_call
      [PTuple [systemctl; PStr action; PStr name]];;
    ret tt.

Definition service_start (self : cls) (name : string) : M unit :=
  service self name "start".

Definition service_stop (self : cls) (name : string) : M unit :=
  service self name "stop".

(** *** [rt_settings_on] and [rt_settings_off] of each class *)

Definition CheckForRealTimeKernel_on (self : cls) : M unit :=
  let SYS_RT_FILE := "/sys/kernel/realtime" in
  is_file ← isfile SYS_RT_FILE;
  found ← (if (is_file : bool) then
             text ← open_read SYS_RT_FILE;
             if String.eqb (PyStr.readline text) "1" then
               log DEBUG ("found " +:+ SYS_RT_FILE +:+ " with '1' in it");;
               ret true
             else ret false
           else ret false);
  if (found : bool) then ret tt
  else if PyStr.endswith (uname_release env) "+rt" then
    log DEBUG "found +rt in kernel release"
  else if PyStr.contains " RT " (uname_version env) then
    log DEBUG "found RT in kernel version"
  else if PyStr.contains " PREEMPT " (uname_version env) then
    log DEBUG "found PREEMT in kernel version"
  else
    log WARNING "You don't seem to be using a real-time kernel.".

(** The body of both loops of [FrequencyScaling]: copy the file named by
    the attribute [source] onto [scaling_min_freq] for one CPU. *)
Definition FrequencyScaling_copy (self : cls) (source : string) (cpu_num : nat)
  : M unit :=
  src ← getattr self source ≫= as_str;
  dst ← getattr self "CPUFREQ_MIN_ALLOWED" ≫= as_str;
  execute_safely self shutil_copyfile
    [PStr (PyStr.format_i src (Z.of_nat cpu_num));
     PStr (PyStr.format_i dst (Z.of_nat cpu_num))];;
  ret tt.

Definition rt_settings_on (self : cls) : M unit :=
  match self with
  | ActionBase => ret tt
  | CheckForRealTimeKernel => CheckForRealTimeKernel_on self
  | Cron => service_stop self "cron";; service_stop self "crond"
  | Tlp => service_stop self "tlp"
  | FrequencyScaling =>
      for_each (seq 0 (cpu_count env)) (FrequencyScaling_copy self "CPUFREQ_MAX")
  | IntelPState =>
      file_name ← getattr self "PSTATE_NO_TURBO_FILE_NAME";
      value ← getattr self "PSTATE_NO_TURBO_ON";
      execute_safely self bound_store_current_and_replace [file_name; value];;
      ret tt
  end.

Definition rt_settings_off (self : cls) : M unit :=
  match self with
  | ActionBase | CheckForRealTimeKernel => ret tt
  | Cron => service_start self "cron";; service_start self "crond"
  | Tlp => service_start self "tlp"
  | FrequencyScaling =>
      for_each (seq 0 (cpu_count env)) (FrequencyScaling_copy self "CPUFREQ_MIN")
  | IntelPState =>
      file_name ← getattr self "PSTATE_NO_TURBO_FILE_NAME";
      default ← getattr self "PSTATE_NO_TURBO_OFF_DEFAULT";
      execute_safely self bound_restore_or_set [file_name; default];;
      ret tt
  end.

(** *** The driver: the statements of the script after the class
    definitions *)

(** [if cli_args.list: ...; exit(0)] *)
Definition list_and_exit : M unit :=
  if list_ cli_args then
    for_each settings_modules (λ action, print (__name__ action));;
    exit 0
  else ret tt.

(** The ignore loop and its check; the value is the new
    [settings_modules]. *)
Definition resolve_ignored : M (list cls) :=
  '(unignored_settings_modules, ignore_left) ←
    lift_result (assort_ignored settings_modules settings_modules (ignore cli_args));
  (if negb (bool_decide (ignore_left = [])) then
     log ERROR ("Could not find settings modules to ignore: "
                +:+ py_repr (PList (PStr <$> ignore_left)));;
     exit 1
   else ret tt);;
  ret unignored_settings_modules.

(** The root warning and the loop over the modules that are left. *)
Definition run_settings (settings_modules : list cls) : M unit :=
  (if bool_decide (is_Some (on_or_off cli_args)) && negb (getuid env =? 0)%Z then
     log WARNING ("You'll probably have to run this as root (sudo) "
                  +:+ "but I'll continue and try.")
   else ret tt);;
  match on_or_off cli_args with
  | Some On =>
      for_each settings_modules (λ SettingsModule,
        log INFO ("real-time settings on: " +:+ __name__ SettingsModule);;
        rt_settings_on SettingsModule)
  | Some Off =>
      for_each settings_modules (λ SettingsModule,
        log INFO ("real-time settings off: " +:+ __name__ SettingsModule);;
        rt_settings_off SettingsModule)
  | None =>
      print "please provide either 'on' or 'off' as last argument (see -h)"
  end.

Definition main : M unit :=
  list_and_exit;;
  settings_modules ← resolve_ignored;
  run_settings settings_modules.

End Program.

(** ** A JSON reader and writer

    The script's properties are stated for any [JsonLib].  This reader
    and writer, for the documents the values above can hold, is the one
    the concrete runs below use. *)

Module Json.

Definition dump_char (c : ascii) : string :=
  let n := N_of_ascii c in
  if Ascii.eqb c PyStr.dquote || Ascii.eqb c PyStr.backslash
  then String PyStr.backslash (PyStr.char c)
  else if Ascii.eqb c PyStr.newline then String PyStr.backslash "n"
  else if Ascii.eqb c PyStr.tab then String PyStr.backslash "t"
  else if Ascii.eqb c PyStr.cr then String PyStr.backslash "r"
  else if (n <? 32)%N
       then String PyStr.backslash
              ("u00" +:+ String (PyStr.hex_digit (n / 16))
                                (PyStr.char (PyStr.hex_digit (n mod 16))))
  else PyStr.char c.

Fixpoint dump_chars (s : string) : string :=
  match s with
  | EmptyString => EmptyString
  | String c s' => dump_char c +:+ dump_chars s'
  end.

Definition dump_string (s : string) : string :=
  String PyStr.dquote (dump_chars s +:+ PyStr.char PyStr.dquote).

(** [json.dumps(v)] with the default separators. *)
Fixpoint dumps (v : pyval) : string :=
  match v with
  | PNone => "null"
  | PBool true => "true"
  | PBool false => "false"
  | PInt z => pretty z
  | PStr s => dump_string s
  | PTuple l | PList l => "[" +:+ PyStr.join ", " (map dumps l) +:+ "]"
  | PDict items =>
      "{" +:+ PyStr.join ", "
                (map (λ kv, dump_string kv.1 +:+ ": " +:+ dumps kv.2) items)
          +:+ "}"
  end.

Definition is_ws (c : ascii) : bool :=
  Ascii.eqb c " " || Ascii.eqb c PyStr.newline || Ascii.eqb c PyStr.tab
  || Ascii.eqb c PyStr.cr.

Fixpoint skip_ws (s : string) : string :=
  match s with
  | String c s' => if is_ws c then skip_ws s' else s
  | EmptyString => EmptyString
  end.

(** The characters of a string literal after its opening quote, and
    the text after its closing quote. *)
Fixpoint read_string (s : string) : option (string * string) :=
  match s with
  | EmptyString => None
  | String c s' =>
      if Ascii.eqb c PyStr.dquote then Some (EmptyString, s')
      else if Ascii.eqb c PyStr.backslash then
        match s' with
        | String e s'' =>
            let unescaped :=
              if Ascii.eqb e "n" then Some PyStr.newline
              else if Ascii.eqb e "t" then Some PyStr.tab
              else if Ascii.eqb e "r" then Some PyStr.cr
              else if Ascii.eqb e PyStr.dquote || Ascii.eqb e PyStr.backslash
                      || Ascii.eqb e "/" then Some e
              else None in
            match unescaped, read_string s'' with
            | Some d, Some (body, rest) => Some (String d body, rest)
            | _, _ => None
            end
        | EmptyString => None
        end
      else if (N_of_ascii c <? 32)%N then None
      else match read_string s' with
           | Some (body, rest) => Some (String c body, rest)
           | None => None
           end
  end.

Definition digit_of (c : ascii) : option Z :=
  let n := N_of_ascii c in
  if ((48 <=? n) && (n <=? 57))%N then Some (Z.of_N (n - 48)) else None.

Fixpoint read_digits (acc : Z) (s : string) : Z * string :=
  match s with
  | String c s' =>
      match digit_of c with
      | Some d => read_digits (10 * acc + d) s'
      | None => (acc, s)
      end
  | EmptyString => (acc, s)
  end.

Definition read_int (s : string) : option (pyval * string) :=
  let '(negative, s1) :=
    match s with
    | String "-" s' => (true, s')
    | _ => (false, s)
    end in
  match s1 with
  | String c _ =>
      if bool_decide (is_Some (digit_of c)) then
        let '(n, rest) := read_digits 0 s1 in
        Some (PInt (if negative then - n else n), rest)
      else None
  | EmptyString => None
  end.

(** A value, the elements of an array after its bracket, the members of
    an object after its brace.  [fuel] bounds the number of steps. *)
Fixpoint read_value (fuel : nat) (s : string) : option (pyval * string) :=
  match fuel with
  | O => None
  | S fuel =>
      match skip_ws s with
      | String "n" (String "u" (String "l" (String "l" rest))) => Some (PNone, rest)
      | String "t" (String "r" (String "u" (String "e" rest))) =>
          Some (PBool true, rest)
      | String "f" (String "a" (String "l" (String "s" (String "e" rest)))) =>
          Some (PBool false, rest)
      | String "[" rest =>
          match skip_ws rest with
          | String "]" rest' => Some (PList [], rest')
          | _ => '(l, rest') ← read_elements fuel rest; Some (PList l, rest')
          end
      | String "{" rest =>
          match skip_ws rest with
          | String "}" rest' => Some (PDict [], rest')
          | _ => '(items, rest') ← read_members fuel [] rest; Some (PDict items, rest')
          end
      | String c rest as s1 =>
          if Ascii.eqb c PyStr.dquote then
            '(body, rest') ← read_string rest; Some (PStr body, rest')
          else read_int s1
      | EmptyString => None
      end
  end
with read_elements (fuel : nat) (s : string) : option (list pyval * string) :=
  match fuel with
  | O => None
  | S fuel =>
      '(v, rest) ← read_value fuel s;
      match skip_ws rest with
      | String "," rest' =>
          '(l, rest'') ← read_elements fuel rest'; Some (v :: l, rest'')
      | String "]" rest' => Some ([v], rest')
      | _ => None
      end
  end
with read_members (fuel : nat) (acc : list (string * pyval)) (s : string)
  : option (list (string * pyval) * string) :=
  match fuel with
  | O => None
  | S fuel =>
      match skip_ws s with
      | String q rest =>
          if Ascii.eqb q PyStr.dquote then
            '(key, rest) ← read_string rest;
            match skip_ws rest with
            | String ":" rest =>
                '(v, rest) ← read_value fuel rest;
                let acc := items_set acc key v in
                match skip_ws rest with
                | String "," rest => read_members fuel acc rest
                | String "}" rest => Some (acc, rest)
                | _ => None
                end
            | _ => None
            end
          else None
      | EmptyString => None
      end
  end.

(** [json.loads(text)]: [None] for text that is not one JSON document. *)
Definition loads (text : string) : option pyval :=
  '(v, rest) ← read_value (2 * String.length text + 2) text;
  if String.eqb (skip_ws rest) "" then Some v else None.

End Json.

Definition python_json : JsonLib :=
  {| json_load := Json.loads; json_dump := Json.dumps |}.

(** ** Concrete machines for the runs below *)

Definition NO_TURBO : string := "/sys/devices/system/cpu/intel_pstate/no_turbo".

(** The output of [systemctl list-unit-files]: a header, one line per
    unit file, an empty line, the count, and the final newline. *)
Definition unit_files_output : string :=
  PyStr.join (PyStr.char PyStr.newline)
    ["UNIT FILE                 STATE    PRESET";
     "cron.service              enabled  enabled";
     "ssh.service               enabled  enabled";
     "tlp.service               disabled enabled";
     "";
     "3 unit files listed.";
     ""].

Definition desktop : Env :=
  {| gettempdir := "/tmp";
     which := λ program,
       if String.eqb program "systemctl" then Some "/usr/bin/systemctl" else None;
     check_output := λ argv,
       if bool_decide (argv = ["systemctl"; "list-unit-files"])
       then Ok unit_files_output
       else Raise CalledProcessError;
     call_status := λ _, 0%Z;
     cpu_count := 2;
     uname_release := "6.1.0-13-amd64";
     uname_version := "#1 SMP PREEMPT_DYNAMIC Debian 6.1.55-1";
     getuid := 0%Z;
     has_pstates := true |}.

(** A machine at start-up: the service cache does not exist yet. *)
Definition boot (files : gmap string string) : world := World files None.

Definition flags (simulate list_ : bool) (ignore : list string)
    (on_or_off : option on_off) : Namespace :=
  {| debug := false; verbose := false; simulate := simulate; list_ := list_;
     ignore := ignore; on_or_off := on_or_off |}.

Definition with_list (list_ : bool) (cli_args : Namespace) : Namespace :=
  {| debug := debug cli_args; verbose := verbose cli_args;
     simulate := simulate cli_args; list_ := list_;
     ignore := ignore cli_args; on_or_off := on_or_off cli_args |}.

(** The names a module can be ignored by. *)
Definition module_names : list string := __name__ <$> settings_modules.

(** ** Observations on traces *)

(** An event that changes the machine or runs a command. *)
Definition acts (e : event) : Prop :=
  match e with
  | EWrite _ _ | EProc _ => True
  | EPrint _ | ELog _ _ | ERead _ => False
  end.

Global Instance acts_dec (e : event) : Decision (acts e).
Proof. destruct e; simpl; apply _. Defined.

(** The events a simulated run is made of: text, reads, and the query
    that fills the service cache. *)
Definition simulated (e : event) : Prop :=
  match e with
  | EPrint _ | ELog _ _ | ERead _ => True
  | EProc argv => argv = ["systemctl"; "list-unit-files"]
  | EWrite _ _ => False
  end.

(** The service names the controller's loop collects from the output of
    [systemctl list-unit-files]. *)
Definition unit_names (output : string) : list string :=
  filter (λ service_name, service_name ≠ "")
    ((λ line, PyStr.splitext_root (hd "" (PyStr.split " " line)))
       <$> PyStr.slice_1_m3 (PyStr.split PyStr.newline output)).

(** A computation that leaves the files alone and emits only events in
    [ok], from every state. *)
Definition harmless {A} (ok : event → Prop) (m : M A) : Prop :=
  ∀ w, fs (world_of (m w)) = fs w ∧ Forall ok (trace_of (m w)).

(** ** Observations for the rest of the script *)

(** The path of a file in the cpufreq directory of one CPU: the
    attribute [CPUFREQ_MIN], [CPUFREQ_MAX] or [CPUFREQ_MIN_ALLOWED] of
    [FrequencyScaling] with the CPU number filled in. *)
Definition cpufreq_file (name : string) (cpu_num : nat) : string :=
  "/sys/devices/system/cpu/cpu" +:+ pretty (Z.of_nat cpu_num)
    +:+ "/cpufreq/" +:+ name.

(** Is the value a [dict]? *)
Definition is_dict (v : pyval) : bool :=
  match v with
  | PDict _ => true
  | _ => false
  end.

(** Is the event a run of [systemctl list-unit-files]? *)
Definition is_listing (e : event) : bool :=
  match e with
  | EProc argv => bool_decide (argv = ["systemctl"; "list-unit-files"])
  | _ => false
  end.

(** How often a trace runs [systemctl list-unit-files]. *)
Definition listings (t : list event) : nat :=
  List.length (List.filter is_listing t).

(** A computation that never lists the unit files and never drops an
    existing service cache. *)
Definition keeps_cache {A} (m : M A) : Prop :=
  ∀ w, listings (trace_of (m w)) = 0
       ∧ (is_Some (_available_services_cache w) →
          is_Some (_available_services_cache (world_of (m w)))).

(** A computation that lists the unit files at most once, not at all
    when the cache exists, and leaves a cache behind when it has listed
    them or found one. *)
Definition lists_once {A} (m : M A) : Prop :=
  ∀ w, listings (trace_of (m w)) ≤ 1
       ∧ (is_Some (_available_services_cache w) → listings (trace_of (m w)) = 0)
       ∧ (is_Some (_available_services_cache w) ∨ listings (trace_of (m w)) = 1 →
          is_Some (_available_services_cache (world_of (m w)))).

(** One line of [systemctl list-unit-files] for the unit file
    [root.ext], with the rest of the line (state and preset) after it. *)
Definition unit_line (entry : string * string * string) : string :=
  let '(root, ext, rest) := entry in
  root +:+ "." +:+ ext +:+ " " +:+ rest.

(** A listing: the header line, one line per unit file, and the footer
    lines, joined by newlines. *)
Definition unit_listing (header : string) (entries : list (string * string * string))
    (footer : list string) : string :=
  PyStr.join (PyStr.char PyStr.newline) (header :: (unit_line <$> entries) ++ footer).

(** A unit file name the controller reads back whole: the root is not
    empty and does not start with a dot, neither part has a slash, a
    space or a newline, and the extension has no dot. *)
Definition well_formed_entry (entry : string * string * string) : bool :=
  let '(root, ext, rest) := entry in
  match root with
  | EmptyString => false
  | String c _ => negb (Ascii.eqb c ".")
  end
  && negb (PyStr.has_char "/" root) && negb (PyStr.has_char " " root)
  && negb (PyStr.has_char PyStr.newline root)
  && negb (PyStr.has_char "." ext) && negb (PyStr.has_char "/" ext)
  && negb (PyStr.has_char " " ext) && negb (PyStr.has_char PyStr.newline ext)
  && negb (PyStr.has_char PyStr.newline rest).

(** * Properties *)

(** ** The string primitives on the script's inputs *)

Example split_lines :
  PyStr.split PyStr.newline (String "a" (String PyStr.newline "b")) = ["a"; "b"].
Proof. reflexivity. Qed.

Example slice_drops_header_and_footer :
  PyStr.slice_1_m3 [1; 2; 3; 4; 5; 6] = [2; 3] ∧ PyStr.slice_1_m3 [1; 2] = [].
Proof. split; reflexivity. Qed.

Example splitext_service : PyStr.splitext_root "cron.service" = "cron".
Proof. reflexivity. Qed.

Example splitext_dotfile : PyStr.splitext_root "/etc/.profile" = "/etc/.profile".
Proof. reflexivity. Qed.

Example join_relative_and_absolute :
  PyStr.path_join "/tmp" "real-time_settings" = "/tmp/real-time_settings"
  ∧ PyStr.path_join "/base" NO_TURBO = NO_TURBO.
Proof. split; reflexivity. Qed.

Example repr_plain : PyStr.repr "cron" = "'cron'".
Proof. reflexivity. Qed.

Example format_cpu :
  PyStr.format_i "/sys/devices/system/cpu/cpu%i/cpufreq" 12
  = "/sys/devices/system/cpu/cpu12/cpufreq".
Proof. reflexivity. Qed.

Example readline_strip_sysfs :
  PyStr.strip (PyStr.readline (String "0" (PyStr.char PyStr.newline))) = "0".
Proof. reflexivity. Qed.

(** ** Whole runs on the concrete machine *)

(** [--simulate on], as root, on a machine with cron and tlp. *)
Example simulated_on_run :
  main desktop python_json (flags true false [] (Some On)) (boot ∅)
  = (Ok tt, World ∅ (Some ["cron"; "ssh"; "tlp"]),
     [ELog INFO "real-time settings on: CheckForRealTimeKernel";
      ELog WARNING "You don't seem to be using a real-time kernel.";
      ELog INFO "real-time settings on: Cron";
      EProc ["systemctl"; "list-unit-files"];
      ELog DEBUG "found services ['cron', 'ssh', 'tlp']";
      EPrint ("simulating - would execute: "
              +:+ "subprocess.call(('/usr/bin/systemctl', 'stop', 'cron'), )");
      ELog INFO "service 'crond' does not seem to exist";
      ELog INFO "real-time settings on: Tlp";
      EPrint ("simulating - would execute: "
              +:+ "subprocess.call(('/usr/bin/systemctl', 'stop', 'tlp'), )");
      ELog INFO "real-time settings on: FrequencyScaling";
      EPrint ("simulating - would execute: shutil.copyfile("
              +:+ "'/sys/devices/system/cpu/cpu0/cpufreq/cpuinfo_max_freq', "
              +:+ "'/sys/devices/system/cpu/cpu0/cpufreq/scaling_min_freq', )");
      EPrint ("simulating - would execute: shutil.copyfile("
              +:+ "'/sys/devices/system/cpu/cpu1/cpufreq/cpuinfo_max_freq', "
              +:+ "'/sys/devices/system/cpu/cpu1/cpufreq/scaling_min_freq', )");
      ELog INFO "real-time settings on: IntelPState";
      EPrint ("simulating - would execute: __main__._store_current_and_replace("
              +:+ "'/sys/devices/system/cpu/intel_pstate/no_turbo', 0, )")]).
Proof. vm_compute. reflexivity. Qed.

(** [--ignore FrequencyScaling off], for real: the services are started,
    then the turbo-boost module ends the run with an uncaught exception. *)
Example real_off_run :
  let run := main desktop python_json (flags false false ["FrequencyScaling"] (Some Off))
               (boot {[ NO_TURBO := "0" ]}) in
  res_of run = Raise (AttributeError "IntelPState" "PSTATE_BASE_PATH")
  ∧ exit_status (res_of run) = 1%Z
  ∧ filter acts (trace_of run)
    = [EProc ["systemctl"; "list-unit-files"];
       EProc ["/usr/bin/systemctl"; "start"; "cron"];
       EProc ["/usr/bin/systemctl"; "start"; "tlp"]].
Proof. vm_compute. repeat split. Qed.

(** The JSON reader reads back what the writer wrote. *)
Example json_round_trip :
  let snapshot := PDict [(NO_TURBO, PStr "0"); ("n", PInt (-3)); ("l", PList [PNone])] in
  Json.loads (Json.dumps snapshot) = Some snapshot.
Proof. vm_compute. reflexivity. Qed.

(** ** Running the monad *)

Lemma run_ret_bind {A B} (a : A) (k : A → M B) w : (ret a ≫= k) w = k a w.
Proof.
  unfold mbind, M_bind, bind, ret. by destruct (k a w) as [[r w'] t].
Qed.

Lemma run_raise_bind {A B} (e : exn) (k : A → M B) w :
  (raise e ≫= k) w = (Raise e, w, []).
Proof. reflexivity. Qed.

Lemma run_emit_bind {B} (ev : event) (k : unit → M B) w :
  (emit ev ≫= k) w = (res_of (k tt w), world_of (k tt w), ev :: trace_of (k tt w)).
Proof.
  unfold mbind, M_bind, bind, emit. by destruct (k tt w) as [[r w'] t].
Qed.

Lemma run_bind_ok {A B} (m : M A) (k : A → M B) w a w1 t1 :
  m w = (Ok a, w1, t1) →
  (m ≫= k) w = (res_of (k a w1), world_of (k a w1), t1 ++ trace_of (k a w1)).
Proof.
  intros Hm. unfold mbind, M_bind, bind. rewrite Hm.
  by destruct (k a w1) as [[r w'] t].
Qed.

Lemma run_bind_raise {A B} (m : M A) (k : A → M B) w e w1 t1 :
  m w = (Raise e, w1, t1) → (m ≫= k) w = (Raise e, w1, t1).
Proof. intros Hm. unfold mbind, M_bind, bind. by rewrite Hm. Qed.

Lemma run_eta {A} (x : result A * world * list event) :
  (res_of x, world_of x, trace_of x) = x.
Proof. by destruct x as [[r w] t]. Qed.

(** ** Class attributes *)

Lemma getattr_TEMPFILE env self :
  getattr env self "TEMPFILE" = ret (PStr (TEMPFILE env)).
Proof. by destruct self. Qed.

(** No class in the resolution order of [IntelPState] defines
    [PSTATE_BASE_PATH]. *)
Lemma getattr_PSTATE_BASE_PATH env :
  getattr env IntelPState "PSTATE_BASE_PATH"
  = raise (AttributeError "IntelPState" "PSTATE_BASE_PATH").
Proof. reflexivity. Qed.

(** ** The state store *)

Lemma items_get_set_eq items key value :
  items_get (items_set items key value) key = Some value.
Proof.
  induction items as [|[k v] items IH]; simpl.
  - by rewrite String.eqb_refl.
  - destruct (String.eqb k key) eqn:E; simpl; by rewrite E.
Qed.

Lemma items_get_set_ne items key value k' :
  k' ≠ key → items_get (items_set items key value) k' = items_get items k'.
Proof.
  intros Hne. induction items as [|[k v] items IH]; simpl.
  - destruct (String.eqb key k') eqn:E; [|done].
    apply String.eqb_eq in E. congruence.
  - destruct (String.eqb k key) eqn:E; simpl.
    + apply String.eqb_eq in E. subst k.
      destruct (String.eqb key k') eqn:E'; [|done].
      apply String.eqb_eq in E'. congruence.
    + by rewrite IH.
Qed.

(** Reading the snapshot never fails and never changes the state: a
    missing file and a file [json.load] rejects both give the empty
    mapping. *)
Lemma _load_all_from_temp_run env json self w :
  _load_all_from_temp env json self w
  = match fs w !! TEMPFILE env with
    | Some text =>
        (Ok (match json_load json text with
             | Some obj => obj
             | None => PDict []
             end), w, [ERead (TEMPFILE env)])
    | None => (Ok (PDict []), w, [])
    end.
Proof.
  unfold _load_all_from_temp, try_except_value_or_missing.
  rewrite getattr_TEMPFILE.
  unfold mbind, M_bind, bind, ret, as_str, open_read, raise. simpl.
  destruct (fs w !! TEMPFILE env) as [text|]; [|done].
  by destruct (json_load json text).
Qed.

Lemma _load_all_from_temp_state env json self w :
  world_of (_load_all_from_temp env json self w) = w.
Proof.
  rewrite _load_all_from_temp_run.
  by destruct (fs w !! TEMPFILE env).
Qed.

(** What [store_to_temp] does when the snapshot is a mapping. *)
Lemma store_to_temp_run env json self key value w items :
  res_of (_load_all_from_temp env json self w) = Ok (PDict items) →
  store_to_temp env json self key value w
  = (Ok PNone,
     World (<[TEMPFILE env := json_dump json (PDict (items_set items key value))]> (fs w))
           (_available_services_cache w),
     trace_of (_load_all_from_temp env json self w)
       ++ [EWrite (TEMPFILE env) (json_dump json (PDict (items_set items key value)))]).
Proof.
  intros Hload. unfold store_to_temp.
  pose proof (_load_all_from_temp_state env json self w) as Hw.
  destruct (_load_all_from_temp env json self w) as [[r w1] t1] eqn:E.
  unfold res_of, world_of, trace_of in *. simpl in Hload, Hw. subst r w1.
  rewrite (run_bind_ok _ _ _ _ _ _ E). simpl.
  rewrite getattr_TEMPFILE. reflexivity.
Qed.

(** C7. [store_to_temp(k, v)] followed by loading the whole snapshot
    yields a mapping with [k] mapped to [v] in which every other key
    keeps the value it had: the snapshot is read in full, one key is
    updated, and the full snapshot is written back.  The snapshot read
    before the call is a mapping ([items]; the empty one for a missing or
    unreadable file), and [json.load] reads back the mapping [json.dump]
    wrote. *)
Theorem store_to_temp_then_load env json self key value w items :
  res_of (_load_all_from_temp env json self w) = Ok (PDict items) →
  json_load json (json_dump json (PDict (items_set items key value)))
  = Some (PDict (items_set items key value)) →
  let after := store_to_temp env json self key value w in
  res_of after = Ok PNone
  ∧ fs (world_of after)
    = <[TEMPFILE env := json_dump json (PDict (items_set items key value))]> (fs w)
  ∧ ∃ items',
      res_of (_load_all_from_temp env json self (world_of after)) = Ok (PDict items')
      ∧ items_get items' key = Some value
      ∧ ∀ k, k ≠ key → items_get items' k = items_get items k.
Proof.
  intros Hload Hjson after. subst after.
  rewrite (store_to_temp_run _ _ _ _ _ _ _ Hload).
  split; [done|]. split; [done|].
  exists (items_set items key value).
  rewrite _load_all_from_temp_run. unfold world_of, res_of. simpl.
  rewrite lookup_insert_eq, Hjson. simpl.
  split; [done|]. split.
  - apply items_get_set_eq.
  - intros k Hk. by apply items_get_set_ne.
Qed.

Lemma store_to_temp_then_load_witness :
  let w := boot {[ TEMPFILE desktop := Json.dumps (PDict [("other", PStr "1")]) ]} in
  let after := store_to_temp desktop python_json IntelPState NO_TURBO (PStr "0") w in
  res_of after = Ok PNone
  ∧ fs (world_of after)
    = <[TEMPFILE desktop :=
          Json.dumps (PDict (items_set [("other", PStr "1")] NO_TURBO (PStr "0")))]>
        (fs w)
  ∧ ∃ items',
      res_of (_load_all_from_temp desktop python_json IntelPState (world_of after))
      = Ok (PDict items')
      ∧ items_get items' NO_TURBO = Some (PStr "0")
      ∧ ∀ k, k ≠ NO_TURBO → items_get items' k = items_get [("other", PStr "1")] k.
Proof.
  intros w.
  apply (store_to_temp_then_load desktop python_json IntelPState NO_TURBO
           (PStr "0") w [("other", PStr "1")]).
  - vm_compute. reflexivity.
  - vm_compute. reflexivity.
Defined.

(** C2. What the code does where the claim asks for the stored value or
    the default: whatever mapping the snapshot holds, whatever the key
    and the default, [load_from_temp] yields [None]. *)
Theorem load_from_temp_yields_None env json self key default w items :
  res_of (_load_all_from_temp env json self w) = Ok (PDict items) →
  load_from_temp env json self key default w
  = (Ok PNone, w, trace_of (_load_all_from_temp env json self w)).
Proof.
  intros Hload. unfold load_from_temp.
  pose proof (_load_all_from_temp_state env json self w) as Hw.
  destruct (_load_all_from_temp env json self w) as [[r w1] t1] eqn:E.
  unfold res_of, world_of, trace_of in *. simpl in Hload, Hw. subst r w1.
  unfold mbind, M_bind, bind. rewrite E. simpl.
  by rewrite !app_nil_r.
Qed.

Lemma load_from_temp_yields_None_witness :
  let w := boot {[ TEMPFILE desktop := Json.dumps (PDict [("a", PStr "1")]) ]} in
  items_get [("a", PStr "1")] "a" = Some (PStr "1") ∧
  items_get [("a", PStr "1")] "b" = None ∧
  load_from_temp desktop python_json IntelPState "a" (PStr "x") w
  = (Ok PNone, w, trace_of (_load_all_from_temp desktop python_json IntelPState w)) ∧
  load_from_temp desktop python_json IntelPState "b" (PStr "x") w
  = (Ok PNone, w, trace_of (_load_all_from_temp desktop python_json IntelPState w)).
Proof.
  intros w. split; [reflexivity|]. split; [reflexivity|]. split.
  - apply (load_from_temp_yields_None desktop python_json IntelPState "a"
             (PStr "x") w [("a", PStr "1")]).
    vm_compute. reflexivity.
  - apply (load_from_temp_yields_None desktop python_json IntelPState "b"
             (PStr "x") w [("a", PStr "1")]).
    vm_compute. reflexivity.
Defined.

(** ** The turbo-boost module *)

(** C9. With simulate mode off, [rt_settings_on] and [rt_settings_off]
    of the turbo-boost module raise [AttributeError] for
    [PSTATE_BASE_PATH], which no class defines, before any file or
    snapshot entry is read or written: the state is the one before the
    call and the only event is the debug message of [execute_safely]. *)
Theorem turbo_module_raises_before_any_io env json cli_args w :
  simulate cli_args = false →
  rt_settings_on env json cli_args IntelPState w
  = (Raise (AttributeError "IntelPState" "PSTATE_BASE_PATH"), w,
     [ELog DEBUG
        ("executing __main__._store_current_and_replace("
         +:+ "'/sys/devices/system/cpu/intel_pstate/no_turbo', 0, )")])
  ∧ rt_settings_off env json cli_args IntelPState w
  = (Raise (AttributeError "IntelPState" "PSTATE_BASE_PATH"), w,
     [ELog DEBUG
        ("executing __main__._restore_or_set("
         +:+ "'/sys/devices/system/cpu/intel_pstate/no_turbo', 1, )")]).
Proof.
  intros Hsim. unfold rt_settings_on, rt_settings_off, execute_safely.
  rewrite Hsim. split.
  - cbn [getattr mro lookup_mro class_dict items_get String.eqb Ascii.eqb Bool.eqb].
    rewrite !run_ret_bind.
    rewrite (run_bind_raise _ _ _ (AttributeError "IntelPState" "PSTATE_BASE_PATH") w
               [ELog DEBUG
                  ("executing " +:+ as_pretty_string bound_store_current_and_replace
                     [PStr "/sys/devices/system/cpu/intel_pstate/no_turbo"; PInt 0])]).
    + reflexivity.
    + unfold log. rewrite run_emit_bind.
      unfold apply_callable, _store_current_and_replace.
      rewrite getattr_PSTATE_BASE_PATH, run_raise_bind. reflexivity.
  - vm_compute. reflexivity.
Qed.

Lemma turbo_module_raises_before_any_io_witness :
  let w := boot {[ NO_TURBO := "0" ]} in
  let cli_args := flags false false [] (Some On) in
  res_of (rt_settings_on desktop python_json cli_args IntelPState w)
  = Raise (AttributeError "IntelPState" "PSTATE_BASE_PATH")
  ∧ world_of (rt_settings_on desktop python_json cli_args IntelPState w) = w
  ∧ res_of (rt_settings_off desktop python_json cli_args IntelPState w)
  = Raise (AttributeError "IntelPState" "PSTATE_BASE_PATH")
  ∧ world_of (rt_settings_off desktop python_json cli_args IntelPState w) = w.
Proof.
  intros w cli_args.
  destruct (turbo_module_raises_before_any_io desktop python_json cli_args w)
    as [Hon Hoff]; [reflexivity|].
  rewrite Hon, Hoff. repeat split.
Defined.

(** C1. The claim asks that revert bring the no-turbo file back to its
    content before apply, or to the default without a snapshot entry.
    On a machine where an apply saved ["1"] and wrote ["0"], and on one
    without a snapshot, [rt_settings_off] raises and the file keeps
    ["0"]; [rt_settings_on] itself raises before it saves or writes
    anything. *)
Theorem turbo_revert_restores_nothing :
  let cli_args := flags false false [] (Some Off) in
  let applied :=
    boot {[ NO_TURBO := "0";
            TEMPFILE desktop := Json.dumps (PDict [(NO_TURBO, PStr "1")]) ]} in
  let unapplied := boot {[ NO_TURBO := "0" ]} in
  let reverted := rt_settings_off desktop python_json cli_args IntelPState applied in
  let defaulted := rt_settings_off desktop python_json cli_args IntelPState unapplied in
  let apply :=
    rt_settings_on desktop python_json cli_args IntelPState (boot {[ NO_TURBO := "1" ]}) in
  res_of (_load_all_from_temp desktop python_json IntelPState applied)
  = Ok (PDict [(NO_TURBO, PStr "1")])
  ∧ res_of reverted = Raise (AttributeError "IntelPState" "PSTATE_BASE_PATH")
  ∧ fs (world_of reverted) !! NO_TURBO = Some "0"
  ∧ res_of defaulted = Raise (AttributeError "IntelPState" "PSTATE_BASE_PATH")
  ∧ fs (world_of defaulted) !! NO_TURBO = Some "0"
  ∧ res_of apply = Raise (AttributeError "IntelPState" "PSTATE_BASE_PATH")
  ∧ fs (world_of apply) !! NO_TURBO = Some "1"
  ∧ fs (world_of apply) !! TEMPFILE desktop = None.
Proof. vm_compute. repeat split. Qed.

(** ** The service controller *)

(** C6. Once the unit-file list is cached, [service_start] and
    [service_stop] on a name that is not in it run no process and do not
    raise: the call returns, the state is the one before it, and its only
    event is the informational message. *)
Theorem service_absent_name_is_noop env json cli_args self name w cache :
  _available_services_cache w = Some cache →
  name ∉ cache →
  service_start env json cli_args self name w
  = (Ok tt, w, [ELog INFO ("service '" +:+ name +:+ "' does not seem to exist")])
  ∧ service_stop env json cli_args self name w
  = (Ok tt, w, [ELog INFO ("service '" +:+ name +:+ "' does not seem to exist")]).
Proof.
  intros Hcache Hname.
  assert (∀ action, service env json cli_args self name action w
    = (Ok tt, w, [ELog INFO ("service '" +:+ name +:+ "' does not seem to exist")]))
    as Hservice.
  { intros action. unfold service.
    unfold mbind, M_bind, bind, get_world. rewrite Hcache.
    unfold ret, get_services_cache. rewrite Hcache.
    by rewrite bool_decide_eq_false_2. }
  split; apply Hservice.
Qed.

Lemma service_absent_name_is_noop_witness :
  let w := World ∅ (Some ["cron"; "ssh"; "tlp"]) in
  let cli_args := flags false false [] (Some On) in
  service_start desktop python_json cli_args Cron "crond" w
  = (Ok tt, w, [ELog INFO "service 'crond' does not seem to exist"])
  ∧ service_stop desktop python_json cli_args Cron "crond" w
  = (Ok tt, w, [ELog INFO "service 'crond' does not seem to exist"]).
Proof.
  intros w cli_args.
  apply (service_absent_name_is_noop desktop python_json cli_args Cron "crond" w
           ["cron"; "ssh"; "tlp"]).
  - reflexivity.
  - apply (bool_decide_eq_false_1 ("crond" ∈ ["cron"; "ssh"; "tlp"])).
    vm_compute. reflexivity.
Defined.

(** ** The driver *)

Lemma main_list env json cli_args w :
  list_ cli_args = true →
  main env json cli_args w
  = (Raise (SystemExit 0), w, EPrint <$> module_names).
Proof.
  intros Hlist. unfold main, list_and_exit. rewrite Hlist. reflexivity.
Qed.

Lemma list_remove_elem `{EqDecision A} (x : A) (l : list A) :
  x ∈ l → ∃ l', list_remove x l = Some l' ∧ ∀ y, y ≠ x → y ∈ l → y ∈ l'.
Proof.
  induction l as [|z l IH]; intros Hx; [by apply elem_of_nil in Hx|].
  simpl. destruct (decide (z = x)) as [->|Hzx].
  - exists l. split; [done|]. intros y Hy Hin.
    apply elem_of_cons in Hin as [?|?]; [done|done].
  - apply elem_of_cons in Hx as [?|Hx]; [done|].
    destruct (IH Hx) as (l' & -> & Hl'). exists (z :: l'). split; [done|].
    intros y Hy Hin. apply elem_of_cons in Hin as [->|Hin].
    + apply list_elem_of_here.
    + apply list_elem_of_further. by apply Hl'.
Qed.

(** The ignore loop over modules that are still in the copy never raises,
    and a name that belongs to no module of the loop stays in the ignore
    list. *)
Lemma assort_ignored_unknown modules :
  NoDup modules →
  ∀ unignored ignore,
    (∀ m, m ∈ modules → m ∈ unignored) →
    ∃ unignored' ignore_left,
      assort_ignored modules unignored ignore = Ok (unignored', ignore_left)
      ∧ ∀ name, name ∈ ignore → name ∉ (__name__ <$> modules) → name ∈ ignore_left.
Proof.
  induction 1 as [|m modules Hm Hnodup IH]; intros unignored ignore Hsub.
  - exists unignored, ignore. by split.
  - simpl. case_bool_decide as Hin.
    + destruct (list_remove_elem m unignored) as (u' & -> & Hu').
      { apply Hsub, list_elem_of_here. }
      destruct (list_remove_elem (__name__ m) ignore Hin) as (i' & -> & Hi').
      destruct (IH u' i') as (u'' & left & -> & Hleft).
      { intros m' Hm'. apply Hu'; [by intros ->|].
        by apply Hsub, list_elem_of_further. }
      exists u'', left. split; [done|].
      intros name Hname Hunknown. apply not_elem_of_cons in Hunknown as [Hne Hunknown]. apply Hleft; [|done]. by apply Hi'.
    + destruct (IH unignored ignore) as (u'' & left & -> & Hleft).
      { intros m' Hm'. by apply Hsub, list_elem_of_further. }
      exists u'', left. split; [done|].
      intros name Hname Hunknown. apply not_elem_of_cons in Hunknown as [Hne Hunknown]. by apply Hleft.
Qed.

Lemma settings_modules_NoDup : NoDup settings_modules.
Proof. apply (bool_decide_unpack (NoDup settings_modules)). vm_compute. exact I. Qed.

(** Without [--list], a name in the ignore list that names no module
    ends the script with [exit(1)] after the error message alone. *)
Lemma main_unknown_ignore env json cli_args w name :
  list_ cli_args = false →
  name ∈ ignore cli_args →
  name ∉ module_names →
  ∃ ignore_left,
    name ∈ ignore_left ∧
    main env json cli_args w
    = (Raise (SystemExit 1), w,
       [ELog ERROR ("Could not find settings modules to ignore: "
                    +:+ py_repr (PList (PStr <$> ignore_left)))]).
Proof.
  intros Hlist Hin Hunknown.
  destruct (assort_ignored_unknown settings_modules settings_modules_NoDup
              settings_modules (ignore cli_args)) as (u & left & Hassort & Hleft);
    [done|].
  exists left. split; [by apply Hleft|].
  unfold main, list_and_exit, resolve_ignored. rewrite Hlist, Hassort.
  rewrite run_ret_bind. simpl lift_result.
  assert (left ≠ []) as Hne.
  { intros ->. specialize (Hleft name Hin Hunknown). by apply elem_of_nil in Hleft. }
  unfold mbind, M_bind, bind, ret. simpl.
  by rewrite bool_decide_eq_false_2.
Qed.

(** C8. With [--list] and nothing ignored the script prints the five
    module names, one [print] each, in registration order, exits with
    status 0, and runs no module: the state is untouched and the prints
    are the whole trace. *)
Theorem list_prints_the_five_modules env json cli_args w :
  list_ cli_args = true →
  ignore cli_args = [] →
  main env json cli_args w
  = (Raise (SystemExit 0), w,
     [EPrint "CheckForRealTimeKernel"; EPrint "Cron"; EPrint "Tlp";
      EPrint "FrequencyScaling"; EPrint "IntelPState"])
  ∧ exit_status (res_of (main env json cli_args w)) = 0%Z.
Proof.
  intros Hlist _. rewrite (main_list _ _ _ _ Hlist). by split.
Qed.

Lemma list_prints_the_five_modules_witness :
  let cli_args := flags false true [] None in
  main desktop python_json cli_args (boot ∅)
  = (Raise (SystemExit 0), boot ∅,
     [EPrint "CheckForRealTimeKernel"; EPrint "Cron"; EPrint "Tlp";
      EPrint "FrequencyScaling"; EPrint "IntelPState"])
  ∧ exit_status (res_of (main desktop python_json cli_args (boot ∅))) = 0%Z.
Proof.
  intros cli_args.
  apply (list_prints_the_five_modules desktop python_json cli_args (boot ∅));
    reflexivity.
Defined.

(** C10. [--list] is handled before the ignore list is checked: every
    run with [--list] prints the module names and exits with status 0,
    whatever the ignore list holds; a name of no module in the ignore
    list, which is then passed over, makes the same command line without
    [--list] exit with status 1. *)
Theorem list_precedes_ignore_check env json cli_args w :
  list_ cli_args = true →
  res_of (main env json cli_args w) = Raise (SystemExit 0)
  ∧ trace_of (main env json cli_args w) = EPrint <$> module_names
  ∧ exit_status (res_of (main env json cli_args w)) = 0%Z
  ∧ ∀ name,
      name ∈ ignore cli_args →
      name ∉ module_names →
      exit_status (res_of (main env json (with_list false cli_args) w)) = 1%Z.
Proof.
  intros Hlist. rewrite (main_list _ _ _ _ Hlist).
  repeat split. intros name Hin Hunknown.
  destruct (main_unknown_ignore env json (with_list false cli_args) w name)
    as (left & _ & ->); done.
Qed.

Lemma list_precedes_ignore_check_witness :
  let cli_args := flags false true ["Cron"; "NoSuchModule"] (Some On) in
  res_of (main desktop python_json cli_args (boot ∅)) = Raise (SystemExit 0)
  ∧ trace_of (main desktop python_json cli_args (boot ∅)) = EPrint <$> module_names
  ∧ exit_status (res_of (main desktop python_json cli_args (boot ∅))) = 0%Z
  ∧ exit_status
      (res_of (main desktop python_json (with_list false cli_args) (boot ∅))) = 1%Z.
Proof.
  intros cli_args.
  destruct (list_precedes_ignore_check desktop python_json cli_args (boot ∅))
    as (Hres & Htrace & Hstatus & Hfatal); [reflexivity|].
  split; [exact Hres|]. split; [exact Htrace|]. split; [exact Hstatus|].
  apply (Hfatal "NoSuchModule").
  - apply (bool_decide_unpack ("NoSuchModule" ∈ ["Cron"; "NoSuchModule"])).
    vm_compute. exact I.
  - apply (bool_decide_eq_false_1 ("NoSuchModule" ∈ module_names)).
    vm_compute. reflexivity.
Defined.

(** C4, as stated, fails with [--list]: the ignore list names no module,
    and the script exits with status 0. *)
Lemma unknown_ignore_with_list_exits_0 :
  let cli_args := flags false true ["NoSuchModule"] (Some On) in
  "NoSuchModule" ∈ ignore cli_args
  ∧ ("NoSuchModule" ∉ module_names)
  ∧ exit_status (res_of (main desktop python_json cli_args (boot ∅))) ≠ 1%Z.
Proof.
  intros cli_args. split; [|split].
  - apply list_elem_of_here.
  - apply (bool_decide_eq_false_1 ("NoSuchModule" ∈ module_names)).
    vm_compute. reflexivity.
  - vm_compute. discriminate.
Qed.

(** C4, amended. Without [--list], a name in the ignore list that names
    no registered module makes the script exit with status 1 before any
    module runs: the state is untouched and the error message is the
    whole trace. *)
Theorem unknown_ignore_is_fatal env json cli_args w name :
  list_ cli_args = false →
  name ∈ ignore cli_args →
  name ∉ module_names →
  res_of (main env json cli_args w) = Raise (SystemExit 1)
  ∧ exit_status (res_of (main env json cli_args w)) = 1%Z
  ∧ world_of (main env json cli_args w) = w
  ∧ ∃ ignore_left,
      name ∈ ignore_left ∧
      trace_of (main env json cli_args w)
      = [ELog ERROR ("Could not find settings modules to ignore: "
                     +:+ py_repr (PList (PStr <$> ignore_left)))].
Proof.
  intros Hlist Hin Hunknown.
  destruct (main_unknown_ignore env json cli_args w name Hlist Hin Hunknown)
    as (left & Hleft & ->).
  repeat split. by exists left.
Qed.

Lemma unknown_ignore_is_fatal_witness :
  let cli_args := flags false false ["Cron"; "NoSuchModule"] (Some On) in
  let run := main desktop python_json cli_args (boot ∅) in
  res_of run = Raise (SystemExit 1)
  ∧ exit_status (res_of run) = 1%Z
  ∧ world_of run = boot ∅
  ∧ ∃ ignore_left,
      "NoSuchModule" ∈ ignore_left ∧
      trace_of run
      = [ELog ERROR ("Could not find settings modules to ignore: "
                     +:+ py_repr (PList (PStr <$> ignore_left)))].
Proof.
  intros cli_args run.
  apply (unknown_ignore_is_fatal desktop python_json cli_args (boot ∅) "NoSuchModule").
  - reflexivity.
  - apply (bool_decide_unpack ("NoSuchModule" ∈ ["Cron"; "NoSuchModule"])).
    vm_compute. exact I.
  - apply (bool_decide_eq_false_1 ("NoSuchModule" ∈ module_names)).
    vm_compute. reflexivity.
Defined.

(** C5. For a registered module name [N], the command line [--ignore N]
    leaves the registration-order list without the module named [N], the
    other modules in their order, and it is this list the script runs
    (a script that got past [--list]). *)
Theorem ignore_one_removes_exactly_it env json cli_args w N :
  ignore cli_args = [N] →
  N ∈ module_names →
  resolve_ignored cli_args w
  = (Ok (filter (λ m, __name__ m ≠ N) settings_modules), w, [])
  ∧ (list_ cli_args = false →
     main env json cli_args w
     = run_settings env json cli_args
         (filter (λ m, __name__ m ≠ N) settings_modules) w).
Proof.
  intros Hignore HN.
  assert (resolve_ignored cli_args w
          = (Ok (filter (λ m, __name__ m ≠ N) settings_modules), w, [])) as Hresolve.
  { unfold resolve_ignored. rewrite Hignore.
    unfold module_names, settings_modules in HN. simpl in HN.
    repeat (apply elem_of_cons in HN as [->|HN]; [by vm_compute|]).
    by apply elem_of_nil in HN. }
  split; [done|]. intros Hlist.
  unfold main, list_and_exit. rewrite Hlist, run_ret_bind.
  rewrite (run_bind_ok _ _ _ _ _ _ Hresolve). simpl. apply run_eta.
Qed.

Lemma ignore_one_removes_exactly_it_witness :
  let cli_args := flags true false ["Tlp"] (Some On) in
  resolve_ignored cli_args (boot ∅)
  = (Ok [CheckForRealTimeKernel; Cron; FrequencyScaling; IntelPState], boot ∅, [])
  ∧ main desktop python_json cli_args (boot ∅)
  = run_settings desktop python_json cli_args
      [CheckForRealTimeKernel; Cron; FrequencyScaling; IntelPState] (boot ∅).
Proof.
  intros cli_args.
  destruct (ignore_one_removes_exactly_it desktop python_json cli_args (boot ∅) "Tlp")
    as [Hresolve Hmain].
  - reflexivity.
  - apply (bool_decide_unpack ("Tlp" ∈ module_names)). vm_compute. exact I.
  - split; [exact Hresolve|]. apply Hmain. reflexivity.
Defined.

(** ** Simulate mode *)

Section Harmless.

Context (ok : event → Prop).

Lemma harmless_ret {A} (a : A) : harmless ok (ret a).
Proof. intros w. by split. Qed.

Lemma harmless_raise {A} (e : exn) : harmless ok (raise (A := A) e).
Proof. intros w. by split. Qed.

Lemma harmless_emit (e : event) : ok e → harmless ok (emit e).
Proof. intros He w. split; [done|]. by apply Forall_singleton. Qed.

Lemma harmless_bind {A B} (m : M A) (k : A → M B) :
  harmless ok m → (∀ a, harmless ok (k a)) → harmless ok (m ≫= k).
Proof.
  intros Hm Hk w. specialize (Hm w).
  unfold mbind, M_bind, bind, world_of, trace_of in *.
  destruct (m w) as [[[a|e] w1] t1]; simpl in *; [|done].
  specialize (Hk a w1). unfold world_of, trace_of in Hk.
  destruct (k a w1) as [[r w2] t2]; simpl in *.
  destruct Hm as [Hfs1 Ht1], Hk as [Hfs2 Ht2].
  split; [congruence|]. by apply Forall_app.
Qed.

Lemma harmless_for_each {A} (l : list A) (body : A → M unit) :
  (∀ x, harmless ok (body x)) → harmless ok (for_each l body).
Proof.
  intros Hbody. induction l as [|x l IH]; simpl.
  - apply harmless_ret.
  - apply harmless_bind; [apply Hbody|]. intros _. apply IH.
Qed.

Lemma harmless_lift_result {A} (r : result A) : harmless ok (lift_result r).
Proof. destruct r; [apply harmless_ret|apply harmless_raise]. Qed.

Lemma harmless_as_str (v : pyval) : harmless ok (as_str v).
Proof. destruct v; first [apply harmless_ret|apply harmless_raise]. Qed.

Lemma harmless_getattr env self name : harmless ok (getattr env self name).
Proof.
  unfold getattr.
  destruct (lookup_mro env (mro self) name);
    [apply harmless_ret|apply harmless_raise].
Qed.

Lemma harmless_get_world : harmless ok get_world.
Proof. intros w. by split. Qed.

Lemma harmless_set_services_cache cache : harmless ok (set_services_cache cache).
Proof. intros w. by split. Qed.

Lemma harmless_append_services_cache name :
  harmless ok (append_services_cache name).
Proof.
  intros w. unfold append_services_cache.
  by destruct (_available_services_cache w).
Qed.

Lemma harmless_get_services_cache : harmless ok get_services_cache.
Proof.
  intros w. unfold get_services_cache.
  by destruct (_available_services_cache w).
Qed.

Lemma harmless_isfile p : harmless ok (isfile p).
Proof. intros w. by split. Qed.

Lemma harmless_open_read p : ok (ERead p) → harmless ok (open_read p).
Proof.
  intros Hok w. unfold open_read.
  destruct (fs w !! p); split; try done. by apply Forall_singleton.
Qed.

End Harmless.

Lemma harmless_print line : harmless simulated (print line).
Proof. by apply harmless_emit. Qed.

Lemma harmless_log level msg : harmless simulated (log level msg).
Proof. by apply harmless_emit. Qed.

Lemma harmless_run_check_output env :
  harmless simulated (run_check_output env ["systemctl"; "list-unit-files"]).
Proof.
  unfold run_check_output. apply harmless_bind; [by apply harmless_emit|].
  intros _. apply harmless_lift_result.
Qed.

(** In simulate mode [execute_safely] is one [print] and nothing else. *)
Lemma execute_safely_simulate env json cli_args self function args w :
  simulate cli_args = true →
  execute_safely env json cli_args self function args w
  = (Ok PNone, w,
     [EPrint ("simulating - would execute: " +:+ as_pretty_string function args)]).
Proof. intros Hsim. unfold execute_safely. by rewrite Hsim. Qed.

Lemma harmless_execute_safely env json cli_args self function args :
  simulate cli_args = true →
  harmless simulated (execute_safely env json cli_args self function args).
Proof.
  intros Hsim w. rewrite (execute_safely_simulate _ _ _ _ _ _ _ Hsim).
  split; [done|]. by apply Forall_singleton.
Qed.

Create HintDb harmless discriminated.

#[local] Hint Resolve harmless_ret harmless_raise harmless_lift_result
  harmless_as_str harmless_getattr harmless_get_world harmless_set_services_cache
  harmless_append_services_cache harmless_get_services_cache harmless_isfile
  harmless_print harmless_log harmless_run_check_output harmless_execute_safely
  : harmless.

(** Splits a sequence of statements at its binds, loops and branches and
    closes the primitive steps with the lemmas above. *)
Ltac harmless_steps :=
  repeat first
    [ solve [eauto with harmless]
    | progress cbv beta zeta
    | apply harmless_bind; [|intros ?]
    | apply harmless_for_each; intros ?
    | match goal with
      | |- harmless _ (if ?b then _ else _) => destruct b
      | |- harmless _ (match ?x with _ => _ end) => destruct x
      end ].

Lemma harmless_fill_services_cache env :
  harmless simulated (fill_services_cache env).
Proof. unfold fill_services_cache. harmless_steps. Qed.

#[local] Hint Resolve harmless_fill_services_cache : harmless.

Lemma harmless_service env json cli_args self name action :
  simulate cli_args = true →
  harmless simulated (service env json cli_args self name action).
Proof.
  intros Hsim. unfold service. harmless_steps.
Qed.

Lemma harmless_CheckForRealTimeKernel_on env self :
  harmless simulated (CheckForRealTimeKernel_on env self).
Proof.
  unfold CheckForRealTimeKernel_on. harmless_steps.
  by apply harmless_open_read.
Qed.

Lemma harmless_FrequencyScaling_copy env json cli_args self source cpu_num :
  simulate cli_args = true →
  harmless simulated (FrequencyScaling_copy env json cli_args self source cpu_num).
Proof. intros Hsim. unfold FrequencyScaling_copy. harmless_steps. Qed.

Lemma harmless_rt_settings env json cli_args self :
  simulate cli_args = true →
  harmless simulated (rt_settings_on env json cli_args self)
  ∧ harmless simulated (rt_settings_off env json cli_args self).
Proof.
  intros Hsim.
  pose proof (harmless_service env json cli_args) as Hservice.
  pose proof (harmless_FrequencyScaling_copy env json cli_args) as Hcopy.
  pose proof (harmless_CheckForRealTimeKernel_on env) as Hcheck.
  destruct self; split; simpl; unfold service_start, service_stop;
    harmless_steps.
Qed.

Lemma harmless_main env json cli_args :
  simulate cli_args = true → harmless simulated (main env json cli_args).
Proof.
  intros Hsim.
  assert (∀ self, harmless simulated (rt_settings_on env json cli_args self)) as Hon
    by (intros self; by apply harmless_rt_settings).
  assert (∀ self, harmless simulated (rt_settings_off env json cli_args self)) as Hoff
    by (intros self; by apply harmless_rt_settings).
  unfold main, list_and_exit, resolve_ignored, run_settings. harmless_steps.
Qed.

(** C3, as stated, fails: a simulated [on] run starts a process, the
    [systemctl list-unit-files] query of the service controller. *)
Lemma simulate_runs_systemctl :
  let cli_args := flags true false [] (Some On) in
  simulate cli_args = true
  ∧ Exists acts (trace_of (main desktop python_json cli_args (boot ∅))).
Proof.
  intros cli_args. split; [reflexivity|].
  apply Exists_exists. exists (EProc ["systemctl"; "list-unit-files"]).
  split; [|exact I].
  vm_compute. do 3 apply list_elem_of_further. apply list_elem_of_here.
Qed.

(** C3, amended. With [--simulate], every call of [execute_safely] is one
    [print] of the would-be action and changes nothing, and a whole run
    writes no file and starts no process but the
    [systemctl list-unit-files] query with which the service controller
    fills its cache: the files are the ones before the run and every
    event is text, a read, or that query. *)
Theorem simulate_only_describes env json cli_args :
  simulate cli_args = true →
  (∀ self function args w,
     execute_safely env json cli_args self function args w
     = (Ok PNone, w,
        [EPrint ("simulating - would execute: " +:+ as_pretty_string function args)]))
  ∧ ∀ w, fs (world_of (main env json cli_args w)) = fs w
         ∧ Forall simulated (trace_of (main env json cli_args w)).
Proof.
  intros Hsim. split.
  - intros self function args w. by apply execute_safely_simulate.
  - by apply harmless_main.
Qed.

Lemma simulate_only_describes_witness :
  let cli_args := flags true false [] (Some On) in
  let w := boot {[ NO_TURBO := "0" ]} in
  execute_safely desktop python_json cli_args Cron subprocess_call
    [PTuple [PStr "/usr/bin/systemctl"; PStr "stop"; PStr "cron"]] w
  = (Ok PNone, w,
     [EPrint ("simulating - would execute: "
              +:+ "subprocess.call(('/usr/bin/systemctl', 'stop', 'cron'), )")])
  ∧ fs (world_of (main desktop python_json cli_args w)) = fs w
  ∧ Forall simulated (trace_of (main desktop python_json cli_args w)).
Proof.
  intros cli_args w.
  destruct (simulate_only_describes desktop python_json cli_args) as [Hexec Hmain];
    [reflexivity|].
  split; [apply Hexec|apply Hmain].
Defined.

(** ** The first use of the service controller *)

Lemma collect_unit_names lines : ∀ w cache,
  _available_services_cache w = Some cache →
  for_each lines (λ line,
    let service_name := PyStr.splitext_root (hd "" (PyStr.split " " line)) in
    if negb (String.eqb service_name "") then append_services_cache service_name
    else ret tt) w
  = (Ok tt,
     World (fs w)
       (Some (cache ++ filter (λ service_name, service_name ≠ "")
                         ((λ line, PyStr.splitext_root (hd "" (PyStr.split " " line)))
                            <$> lines))),
     []).
Proof.
  induction lines as [|line lines IH]; intros w cache Hcache; cbn [for_each].
  - rewrite fmap_nil, filter_nil, app_nil_r, <- Hcache. by destruct w.
  - rewrite fmap_cons.
    cbv beta zeta in IH |- *.
    destruct (String.eqb (PyStr.splitext_root (hd "" (PyStr.split " " line))) "")
      eqn:E; cbn [negb].
    + apply String.eqb_eq in E. rewrite run_ret_bind.
      rewrite (IH w cache Hcache). rewrite filter_cons_False; [done|].
      by intros Hne.
    + apply String.eqb_neq in E.
      rewrite (run_bind_ok _ _ w tt
                 (World (fs w)
                    (Some (cache ++ [PyStr.splitext_root (hd "" (PyStr.split " " line))])))
                 []).
      2:{ unfold append_services_cache. by rewrite Hcache. }
      rewrite (IH _ (cache ++ [PyStr.splitext_root (hd "" (PyStr.split " " line))]));
        [|done].
      rewrite filter_cons_True; [|done]. unfold res_of, world_of, trace_of. simpl.
      by rewrite <- app_assoc.
Qed.

(** Filling the cache runs [systemctl list-unit-files] once and keeps the
    names of its unit files. *)
Lemma fill_services_cache_run env w output :
  check_output env ["systemctl"; "list-unit-files"] = Ok output →
  fill_services_cache env w
  = (Ok tt, World (fs w) (Some (unit_names output)),
     [EProc ["systemctl"; "list-unit-files"];
      ELog DEBUG ("found services " +:+ py_repr (PList (PStr <$> unit_names output)))]).
Proof.
  intros Houtput. unfold fill_services_cache.
  rewrite (run_bind_ok _ _ w tt (World (fs w) (Some [])) []); [|done].
  rewrite (run_bind_ok _ _ _ output (World (fs w) (Some []))
             [EProc ["systemctl"; "list-unit-files"]]).
  2:{ unfold run_check_output. rewrite Houtput. reflexivity. }
  rewrite (run_bind_ok _ _ _ tt (World (fs w) (Some (unit_names output))) []).
  2:{ by rewrite (collect_unit_names _ (World (fs w) (Some [])) [] eq_refl). }
  reflexivity.
Qed.

(** The first call of the controller fills the cache; for a name that is
    not among the unit files it then starts no further process. *)
Lemma service_first_use env json cli_args self name action w output :
  _available_services_cache w = None →
  check_output env ["systemctl"; "list-unit-files"] = Ok output →
  name ∉ unit_names output →
  service env json cli_args self name action w
  = (Ok tt, World (fs w) (Some (unit_names output)),
     [EProc ["systemctl"; "list-unit-files"];
      ELog DEBUG ("found services " +:+ py_repr (PList (PStr <$> unit_names output)));
      ELog INFO ("service '" +:+ name +:+ "' does not seem to exist")]).
Proof.
  intros Hcache Houtput Hname. unfold service.
  rewrite (run_bind_ok _ _ w w w []); [|done]. rewrite Hcache.
  rewrite (run_bind_ok _ _ _ _ _ _ (fill_services_cache_run env w output Houtput)).
  unfold mbind, M_bind, bind, get_services_cache. simpl.
  by rewrite bool_decide_eq_false_2.
Qed.

(** * Further properties of the script *)

(** ** The state store at its edges *)


(** X2. A snapshot file that holds a JSON document other than an object
    breaks both operations of the store: [store_to_temp] raises
    [TypeError] at the item assignment and [load_from_temp] raises
    [AttributeError] at [.get]; neither touches the file. *)
Theorem state_store_rejects_non_mapping env json self key value default w text doc :
  fs w !! TEMPFILE env = Some text →
  json_load json text = Some doc →
  is_dict doc = false →
  store_to_temp env json self key value w
  = (Raise TypeError, w, [ERead (TEMPFILE env)])
  ∧ load_from_temp env json self key default w
  = (Raise (AttributeError "object" "get"), w, [ERead (TEMPFILE env)]).
Proof.
  intros Hfile Hdoc Hnodict.
  pose proof (_load_all_from_temp_run env json self w) as Hload.
  rewrite Hfile, Hdoc in Hload.
  split.
  - unfold store_to_temp. rewrite (run_bind_ok _ _ _ _ _ _ Hload).
    by destruct doc.
  - unfold load_from_temp, mbind, M_bind, bind. rewrite Hload.
    by destruct doc.
Qed.

Lemma state_store_rejects_non_mapping_witness :
  let w := boot {[ TEMPFILE desktop := "[1, 2]" ]} in
  store_to_temp desktop python_json IntelPState NO_TURBO (PStr "0") w
  = (Raise TypeError, w, [ERead (TEMPFILE desktop)])
  ∧ load_from_temp desktop python_json IntelPState NO_TURBO PNone w
  = (Raise (AttributeError "object" "get"), w, [ERead (TEMPFILE desktop)]).
Proof.
  intros w.
  apply (state_store_rejects_non_mapping desktop python_json IntelPState NO_TURBO
           (PStr "0") PNone w "[1, 2]" (PList [PInt 1; PInt 2])).
  - vm_compute. reflexivity.
  - vm_compute. reflexivity.
  - reflexivity.
Defined.

Lemma _load_all_from_temp_after_store env json self key value w items :
  res_of (_load_all_from_temp env json self w) = Ok (PDict items) →
  json_load json (json_dump json (PDict (items_set items key value)))
  = Some (PDict (items_set items key value)) →
  res_of (_load_all_from_temp env json self
            (world_of (store_to_temp env json self key value w)))
  = Ok (PDict (items_set items key value)).
Proof.
  intros Hload Hjson. rewrite (store_to_temp_run _ _ _ _ _ _ _ Hload).
  rewrite _load_all_from_temp_run. unfold world_of, res_of. simpl.
  by rewrite lookup_insert_eq, Hjson.
Qed.

(** X3. Two stores in a row accumulate: after [store_to_temp(k1, v1)] and
    [store_to_temp(k2, v2)] the snapshot maps [k2] to [v2], still maps
    [k1] to [v1] when the keys differ, and keeps every other key; the
    second store of one key overrides the first.  The snapshot read at
    the start is a mapping and [json.load] reads back the two documents
    written. *)
Theorem store_to_temp_twice env json self k1 v1 k2 v2 w items :
  let items1 := items_set items k1 v1 in
  let items2 := items_set items1 k2 v2 in
  let w1 := world_of (store_to_temp env json self k1 v1 w) in
  let w2 := world_of (store_to_temp env json self k2 v2 w1) in
  res_of (_load_all_from_temp env json self w) = Ok (PDict items) →
  json_load json (json_dump json (PDict items1)) = Some (PDict items1) →
  json_load json (json_dump json (PDict items2)) = Some (PDict items2) →
  res_of (store_to_temp env json self k2 v2 w1) = Ok PNone
  ∧ res_of (_load_all_from_temp env json self w2) = Ok (PDict items2)
  ∧ items_get items2 k2 = Some v2
  ∧ (k1 ≠ k2 → items_get items2 k1 = Some v1)
  ∧ ∀ k, k ≠ k1 → k ≠ k2 → items_get items2 k = items_get items k.
Proof.
  intros items1 items2 w1 w2 Hload Hjson1 Hjson2.
  assert (res_of (_load_all_from_temp env json self w1) = Ok (PDict items1)) as Hload1.
  { by apply _load_all_from_temp_after_store. }
  split; [by rewrite (store_to_temp_run _ _ _ _ _ _ _ Hload1)|].
  split; [by apply _load_all_from_temp_after_store|].
  split; [apply items_get_set_eq|]. split.
  - intros Hne. unfold items2. rewrite items_get_set_ne; [|done].
    apply items_get_set_eq.
  - intros k Hk1 Hk2. unfold items2, items1.
    by rewrite !items_get_set_ne.
Qed.

Lemma store_to_temp_twice_witness :
  let w := boot ∅ in
  let w1 := world_of (store_to_temp desktop python_json Cron "a" (PStr "1") w) in
  let w2 := world_of (store_to_temp desktop python_json Cron "b" (PStr "2") w1) in
  res_of (store_to_temp desktop python_json Cron "b" (PStr "2") w1) = Ok PNone
  ∧ res_of (_load_all_from_temp desktop python_json Cron w2)
    = Ok (PDict [("a", PStr "1"); ("b", PStr "2")])
  ∧ items_get [("a", PStr "1"); ("b", PStr "2")] "b" = Some (PStr "2")
  ∧ ("a" ≠ "b" → items_get [("a", PStr "1"); ("b", PStr "2")] "a" = Some (PStr "1"))
  ∧ ∀ k, k ≠ "a" → k ≠ "b" →
         items_get [("a", PStr "1"); ("b", PStr "2")] k = items_get [] k.
Proof.
  intros w w1 w2.
  apply (store_to_temp_twice desktop python_json Cron "a" (PStr "1") "b" (PStr "2")
           w []).
  - vm_compute. reflexivity.
  - vm_compute. reflexivity.
  - vm_compute. reflexivity.
Defined.

(** ** Frequency scaling, for real *)

Lemma string_length_app (s t : string) :
  String.length (s +:+ t) = String.length s + String.length t.
Proof. induction s as [|c s IH]; simpl; [done|]. by rewrite IH. Qed.

(** Two concatenations with tails of one length agree part by part. *)
Lemma string_app_inj_tail (a b s t : string) :
  String.length s = String.length t → a +:+ s = b +:+ t → a = b ∧ s = t.
Proof.
  revert b. induction a as [|c a IH]; intros [|d b] Hlen Heq.
  - done.
  - apply (f_equal String.length) in Heq.
    rewrite !string_length_app in Heq. simpl in Heq. lia.
  - apply (f_equal String.length) in Heq.
    rewrite !string_length_app in Heq. simpl in Heq. lia.
  - cbn [String.append] in Heq. injection Heq as -> Heq.
    destruct (IH b Hlen Heq) as [-> ->]. done.
Qed.

Lemma cpufreq_file_inj name1 name2 n m :
  String.length name1 = String.length name2 →
  cpufreq_file name1 n = cpufreq_file name2 m → name1 = name2 ∧ n = m.
Proof.
  intros Hlen Heq. unfold cpufreq_file in Heq.
  apply String.app_inj in Heq.
  apply string_app_inj_tail in Heq as [Hn Hname].
  - apply String.app_inj in Hname. split; [done|].
    apply pretty_Z_inj in Hn. lia.
  - rewrite !string_length_app. by rewrite Hlen.
Qed.

(** The file written for one CPU is neither a source file nor the file
    written for another CPU. *)
Lemma cpufreq_source_not_target name n m :
  name = "cpuinfo_max_freq" ∨ name = "cpuinfo_min_freq" →
  cpufreq_file name n ≠ cpufreq_file "scaling_min_freq" m.
Proof.
  intros [-> | ->] Heq; by apply cpufreq_file_inj in Heq as [? ?].
Qed.

Lemma cpufreq_target_inj n m :
  cpufreq_file "scaling_min_freq" n = cpufreq_file "scaling_min_freq" m → n = m.
Proof. intros Heq. by apply cpufreq_file_inj in Heq as [? ?]. Qed.

Lemma format_cpufreq_file (name : string) cpu_num :
  name = "cpuinfo_max_freq" ∨ name = "cpuinfo_min_freq" ∨ name = "scaling_min_freq" →
  PyStr.format_i ("/sys/devices/system/cpu/cpu%i/cpufreq/" +:+ name) (Z.of_nat cpu_num)
  = cpufreq_file name cpu_num.
Proof. intros [-> | [-> | ->]]; reflexivity. Qed.

Lemma FrequencyScaling_attr_run env source name w :
  (source = "CPUFREQ_MAX" ∧ name = "cpuinfo_max_freq")
  ∨ (source = "CPUFREQ_MIN" ∧ name = "cpuinfo_min_freq")
  ∨ (source = "CPUFREQ_MIN_ALLOWED" ∧ name = "scaling_min_freq") →
  (getattr env FrequencyScaling source ≫= as_str) w
  = (Ok ("/sys/devices/system/cpu/cpu%i/cpufreq/" +:+ name), w, []).
Proof. intros [[-> ->] | [[-> ->] | [-> ->]]]; reflexivity. Qed.

(** One real copy: the debug message, the read and the write. *)
Lemma FrequencyScaling_copy_run env json cli_args source name cpu_num w data :
  simulate cli_args = false →
  (source = "CPUFREQ_MAX" ∧ name = "cpuinfo_max_freq")
  ∨ (source = "CPUFREQ_MIN" ∧ name = "cpuinfo_min_freq") →
  fs w !! cpufreq_file name cpu_num = Some data →
  FrequencyScaling_copy env json cli_args FrequencyScaling source cpu_num w
  = (Ok tt,
     World (<[cpufreq_file "scaling_min_freq" cpu_num := data]> (fs w))
           (_available_services_cache w),
     [ELog DEBUG
        ("executing "
         +:+ as_pretty_string shutil_copyfile
               [PStr (cpufreq_file name cpu_num);
                PStr (cpufreq_file "scaling_min_freq" cpu_num)]);
      ERead (cpufreq_file name cpu_num);
      EWrite (cpufreq_file "scaling_min_freq" cpu_num) data]).
Proof.
  intros Hsim Hsource Hfile. unfold FrequencyScaling_copy.
  rewrite (run_bind_ok _ _ _ _ _ _ (FrequencyScaling_attr_run env source name w
             ltac:(tauto))).
  rewrite (run_bind_ok _ _ _ _ _ _ (FrequencyScaling_attr_run env
             "CPUFREQ_MIN_ALLOWED" "scaling_min_freq" w ltac:(tauto))).
  rewrite !format_cpufreq_file by tauto.
  unfold execute_safely. rewrite Hsim. unfold apply_callable, copyfile, open_read.
  unfold mbind, M_bind, bind, log, emit, ret. rewrite Hfile. reflexivity.
Qed.

Lemma run_bind_res_ok {A B} (m : M A) (k : A → M B) w a :
  res_of (m w) = Ok a →
  res_of ((m ≫= k) w) = res_of (k a (world_of (m w)))
  ∧ world_of ((m ≫= k) w) = world_of (k a (world_of (m w))).
Proof.
  unfold mbind, M_bind, bind, res_of, world_of.
  destruct (m w) as [[r w1] t1]; simpl. intros ->.
  by destruct (k a w1) as [[r2 w2] t2].
Qed.

Lemma run_bind_res_raise {A B} (m : M A) (k : A → M B) w e :
  res_of (m w) = Raise e →
  res_of ((m ≫= k) w) = Raise e ∧ world_of ((m ≫= k) w) = world_of (m w).
Proof.
  unfold mbind, M_bind, bind, res_of, world_of.
  destruct (m w) as [[r w1] t1]; simpl. by intros ->.
Qed.

(** A loop that copies, for each number, one file onto another, with
    sources and targets apart. *)
Section CopyLoop.

Context (body : nat → M unit) (src dst : nat → string).

Hypothesis src_not_dst : ∀ n m, src n ≠ dst m.
Hypothesis dst_inj : ∀ n m, dst n = dst m → n = m.
Hypothesis body_copies : ∀ n w data,
  fs w !! src n = Some data →
  res_of (body n w) = Ok tt
  ∧ world_of (body n w)
    = World (<[dst n := data]> (fs w)) (_available_services_cache w).
Hypothesis body_missing : ∀ n w,
  fs w !! src n = None →
  res_of (body n w) = Raise (FileNotFoundError (src n)) ∧ world_of (body n w) = w.

Lemma copy_loop len : ∀ start w,
  (∀ n, start ≤ n < start + len → is_Some (fs w !! src n)) →
  res_of (for_each (seq start len) body w) = Ok tt
  ∧ _available_services_cache (world_of (for_each (seq start len) body w))
    = _available_services_cache w
  ∧ (∀ n, start ≤ n < start + len →
       fs (world_of (for_each (seq start len) body w)) !! dst n = fs w !! src n)
  ∧ (∀ p, (∀ n, start ≤ n < start + len → p ≠ dst n) →
       fs (world_of (for_each (seq start len) body w)) !! p = fs w !! p).
Proof.
  induction len as [|len IH]; intros start w Hsrc; cbn [seq for_each].
  - split; [done|]. split; [done|]. split; [intros n ?; lia|done].
  - destruct (Hsrc start) as [data Hdata]; [lia|].
    destruct (body_copies start w data Hdata) as [Hres Hworld].
    destruct (run_bind_res_ok (body start) (λ _, for_each (seq (S start) len) body)
                w tt Hres) as [-> ->].
    rewrite Hworld.
    set (w1 := World (<[dst start := data]> (fs w)) (_available_services_cache w)).
    destruct (IH (S start) w1) as (Hok & Hcache & Hdst & Hrest).
    { intros n Hn. unfold w1. simpl. rewrite lookup_insert_ne; [|by auto].
      apply Hsrc. lia. }
    split; [done|]. split; [done|]. split.
    + intros n Hn. destruct (decide (n = start)) as [->|Hne].
      * rewrite Hrest.
        -- unfold w1. simpl. by rewrite lookup_insert_eq.
        -- intros m Hm Heq. apply dst_inj in Heq. lia.
      * rewrite Hdst by lia. unfold w1. simpl.
        rewrite lookup_insert_ne; [done|by auto].
    + intros p Hp. rewrite Hrest.
      * unfold w1. simpl. rewrite lookup_insert_ne; [done|].
        intros Heq. apply (Hp start); [lia|done].
      * intros n Hn. apply Hp. lia.
Qed.

Lemma copy_loop_missing len : ∀ start w k,
  start ≤ k < start + len →
  (∀ n, start ≤ n < k → is_Some (fs w !! src n)) →
  fs w !! src k = None →
  res_of (for_each (seq start len) body w) = Raise (FileNotFoundError (src k))
  ∧ (∀ n, start ≤ n < k →
       fs (world_of (for_each (seq start len) body w)) !! dst n = fs w !! src n)
  ∧ (∀ p, (∀ n, start ≤ n < k → p ≠ dst n) →
       fs (world_of (for_each (seq start len) body w)) !! p = fs w !! p).
Proof.
  induction len as [|len IH]; intros start w k Hk Hsrc Hmissing; [lia|].
  cbn [seq for_each]. destruct (decide (k = start)) as [->|Hne].
  - destruct (body_missing start w Hmissing) as [Hres Hworld].
    destruct (run_bind_res_raise (body start)
                (λ _, for_each (seq (S start) len) body) w _ Hres) as [-> ->].
    rewrite Hworld. split; [done|]. split; [intros n ?; lia|done].
  - destruct (Hsrc start) as [data Hdata]; [lia|].
    destruct (body_copies start w data Hdata) as [Hres Hworld].
    destruct (run_bind_res_ok (body start) (λ _, for_each (seq (S start) len) body)
                w tt Hres) as [-> ->].
    rewrite Hworld.
    set (w1 := World (<[dst start := data]> (fs w)) (_available_services_cache w)).
    destruct (IH (S start) w1 k) as (Hraise & Hdst & Hrest).
    { lia. }
    { intros n Hn. unfold w1. simpl. rewrite lookup_insert_ne; [|by auto].
      apply Hsrc. lia. }
    { unfold w1. simpl. rewrite lookup_insert_ne; [done|by auto]. }
    split; [done|]. split.
    + intros n Hn. destruct (decide (n = start)) as [->|Hne'].
      * rewrite Hrest.
        -- unfold w1. simpl. by rewrite lookup_insert_eq.
        -- intros m Hm Heq. apply dst_inj in Heq. lia.
      * rewrite Hdst by lia. unfold w1. simpl.
        rewrite lookup_insert_ne; [done|by auto].
    + intros p Hp. rewrite Hrest.
      * unfold w1. simpl. rewrite lookup_insert_ne; [done|].
        intros Heq. apply (Hp start); [lia|done].
      * intros n Hn. apply Hp. lia.
Qed.

End CopyLoop.

Lemma FrequencyScaling_copy_missing env json cli_args source name cpu_num w :
  simulate cli_args = false →
  (source = "CPUFREQ_MAX" ∧ name = "cpuinfo_max_freq")
  ∨ (source = "CPUFREQ_MIN" ∧ name = "cpuinfo_min_freq") →
  fs w !! cpufreq_file name cpu_num = None →
  res_of (FrequencyScaling_copy env json cli_args FrequencyScaling source cpu_num w)
  = Raise (FileNotFoundError (cpufreq_file name cpu_num))
  ∧ world_of (FrequencyScaling_copy env json cli_args FrequencyScaling source cpu_num w)
    = w.
Proof.
  intros Hsim Hsource Hfile. unfold FrequencyScaling_copy.
  rewrite (run_bind_ok _ _ _ _ _ _ (FrequencyScaling_attr_run env source name w
             ltac:(tauto))).
  rewrite (run_bind_ok _ _ _ _ _ _ (FrequencyScaling_attr_run env
             "CPUFREQ_MIN_ALLOWED" "scaling_min_freq" w ltac:(tauto))).
  rewrite !format_cpufreq_file by tauto.
  unfold execute_safely. rewrite Hsim. unfold apply_callable, copyfile, open_read.
  unfold mbind, M_bind, bind, log, emit, ret. rewrite Hfile. by split.
Qed.

(** The loop of [FrequencyScaling], for real, over any range of CPUs. *)
Lemma FrequencyScaling_loop env json cli_args source name :
  simulate cli_args = false →
  (source = "CPUFREQ_MAX" ∧ name = "cpuinfo_max_freq")
  ∨ (source = "CPUFREQ_MIN" ∧ name = "cpuinfo_min_freq") →
  (∀ n m, cpufreq_file name n ≠ cpufreq_file "scaling_min_freq" m)
  ∧ (∀ n w data,
       fs w !! cpufreq_file name n = Some data →
       res_of (FrequencyScaling_copy env json cli_args FrequencyScaling source n w)
       = Ok tt
       ∧ world_of (FrequencyScaling_copy env json cli_args FrequencyScaling source n w)
         = World (<[cpufreq_file "scaling_min_freq" n := data]> (fs w))
                 (_available_services_cache w))
  ∧ (∀ n w,
       fs w !! cpufreq_file name n = None →
       res_of (FrequencyScaling_copy env json cli_args FrequencyScaling source n w)
       = Raise (FileNotFoundError (cpufreq_file name n))
       ∧ world_of (FrequencyScaling_copy env json cli_args FrequencyScaling source n w)
         = w).
Proof.
  intros Hsim Hsource. split; [|split].
  - intros n m. apply cpufreq_source_not_target. tauto.
  - intros n w data Hdata.
    by rewrite (FrequencyScaling_copy_run _ _ _ _ _ _ _ _ Hsim Hsource Hdata).
  - intros n w Hmissing. by apply FrequencyScaling_copy_missing.
Qed.

Lemma FrequencyScaling_all_cpus env json cli_args source name w :
  simulate cli_args = false →
  (source = "CPUFREQ_MAX" ∧ name = "cpuinfo_max_freq")
  ∨ (source = "CPUFREQ_MIN" ∧ name = "cpuinfo_min_freq") →
  (∀ n, n < cpu_count env → is_Some (fs w !! cpufreq_file name n)) →
  let after :=
    for_each (seq 0 (cpu_count env))
      (FrequencyScaling_copy env json cli_args FrequencyScaling source) w in
  res_of after = Ok tt
  ∧ (∀ n, n < cpu_count env →
       fs (world_of after) !! cpufreq_file "scaling_min_freq" n
       = fs w !! cpufreq_file name n)
  ∧ (∀ p, (∀ n, n < cpu_count env → p ≠ cpufreq_file "scaling_min_freq" n) →
       fs (world_of after) !! p = fs w !! p).
Proof.
  intros Hsim Hsource Hsrc after. subst after.
  destruct (FrequencyScaling_loop env json cli_args source name Hsim Hsource)
    as (Hapart & Hcopies & Hmissing).
  destruct (copy_loop _ _ _ Hapart cpufreq_target_inj Hcopies (cpu_count env) 0 w)
    as (Hok & _ & Hdst & Hrest).
  { intros n Hn. apply Hsrc. lia. }
  split; [done|]. split.
  - intros n Hn. apply Hdst. lia.
  - intros p Hp. apply Hrest. intros n Hn. apply Hp. lia.
Qed.

(** X4. For real, [FrequencyScaling.rt_settings_on] pins every CPU: when
    each CPU below [cpu_count()] has its [cpuinfo_max_freq] file, the call
    returns, [scaling_min_freq] of each of these CPUs holds what its
    [cpuinfo_max_freq] holds, and no other file changes. *)
Theorem frequency_scaling_on_pins_every_cpu env json cli_args w :
  simulate cli_args = false →
  (∀ n, n < cpu_count env → is_Some (fs w !! cpufreq_file "cpuinfo_max_freq" n)) →
  let after := rt_settings_on env json cli_args FrequencyScaling w in
  res_of after = Ok tt
  ∧ (∀ n, n < cpu_count env →
       fs (world_of after) !! cpufreq_file "scaling_min_freq" n
       = fs w !! cpufreq_file "cpuinfo_max_freq" n)
  ∧ (∀ p, (∀ n, n < cpu_count env → p ≠ cpufreq_file "scaling_min_freq" n) →
       fs (world_of after) !! p = fs w !! p).
Proof.
  intros Hsim Hsrc.
  apply (FrequencyScaling_all_cpus env json cli_args "CPUFREQ_MAX" "cpuinfo_max_freq");
    [done|tauto|done].
Qed.

(** A machine with two CPUs in the middle of their frequency range. *)
Lemma two_cpus_files (name : string) (files : gmap string string) :
  (∀ n, n < 2 → is_Some (files !! cpufreq_file name n)) ↔
  is_Some (files !! cpufreq_file name 0) ∧ is_Some (files !! cpufreq_file name 1).
Proof.
  split.
  - intros H. split; apply H; lia.
  - intros [H0 H1] [|[|n]] Hn; [done|done|lia].
Qed.

Lemma frequency_scaling_on_pins_every_cpu_witness :
  let w :=
    boot {[ cpufreq_file "cpuinfo_max_freq" 0 := "3400000";
            cpufreq_file "cpuinfo_max_freq" 1 := "3200000";
            cpufreq_file "scaling_min_freq" 0 := "800000" ]} in
  let after :=
    rt_settings_on desktop python_json (flags false false [] (Some On))
      FrequencyScaling w in
  res_of after = Ok tt
  ∧ fs (world_of after) !! cpufreq_file "scaling_min_freq" 0 = Some "3400000"
  ∧ fs (world_of after) !! cpufreq_file "scaling_min_freq" 1 = Some "3200000"
  ∧ fs (world_of after) !! NO_TURBO = fs w !! NO_TURBO.
Proof.
  intros w after.
  destruct (frequency_scaling_on_pins_every_cpu desktop python_json
              (flags false false [] (Some On)) w) as (Hok & Hpinned & Hrest).
  - reflexivity.
  - apply (two_cpus_files "cpuinfo_max_freq"). split; vm_compute; eauto.
  - unfold after. split; [exact Hok|]. split; [|split].
    + rewrite (Hpinned 0); [reflexivity|]. simpl. lia.
    + rewrite (Hpinned 1); [reflexivity|]. simpl. lia.
    + apply Hrest. intros n _ Heq. vm_compute in Heq. discriminate.
Defined.

(** X5. Revert after apply, for real: [rt_settings_off] run on the
    machine [rt_settings_on] leaves puts what [cpuinfo_min_freq] holds
    into [scaling_min_freq] of every CPU, whatever [scaling_min_freq]
    held before apply, and the two calls together change no other file. *)
Theorem frequency_scaling_off_after_on env json cli_args w :
  simulate cli_args = false →
  (∀ n, n < cpu_count env → is_Some (fs w !! cpufreq_file "cpuinfo_max_freq" n)) →
  (∀ n, n < cpu_count env → is_Some (fs w !! cpufreq_file "cpuinfo_min_freq" n)) →
  let applied := world_of (rt_settings_on env json cli_args FrequencyScaling w) in
  let after := rt_settings_off env json cli_args FrequencyScaling applied in
  res_of after = Ok tt
  ∧ (∀ n, n < cpu_count env →
       fs (world_of after) !! cpufreq_file "scaling_min_freq" n
       = fs w !! cpufreq_file "cpuinfo_min_freq" n)
  ∧ (∀ p, (∀ n, n < cpu_count env → p ≠ cpufreq_file "scaling_min_freq" n) →
       fs (world_of after) !! p = fs w !! p).
Proof.
  intros Hsim Hmax Hmin applied after.
  destruct (FrequencyScaling_all_cpus env json cli_args "CPUFREQ_MAX"
              "cpuinfo_max_freq" w Hsim ltac:(tauto) Hmax) as (_ & _ & Hrest).
  fold (rt_settings_on env json cli_args FrequencyScaling w) in Hrest.
  fold applied in Hrest.
  assert (∀ n, fs applied !! cpufreq_file "cpuinfo_min_freq" n
               = fs w !! cpufreq_file "cpuinfo_min_freq" n) as Hkept.
  { intros n. apply Hrest. intros m _. apply cpufreq_source_not_target. tauto. }
  destruct (FrequencyScaling_all_cpus env json cli_args "CPUFREQ_MIN"
              "cpuinfo_min_freq" applied Hsim ltac:(tauto))
    as (Hok & Hdst & Hrest').
  { intros n Hn. rewrite Hkept. by apply Hmin. }
  split; [exact Hok|]. split.
  - intros n Hn. fold (rt_settings_off env json cli_args FrequencyScaling applied) in Hdst.
    unfold after. rewrite (Hdst n Hn). apply Hkept.
  - intros p Hp. fold (rt_settings_off env json cli_args FrequencyScaling applied) in Hrest'.
    unfold after. rewrite (Hrest' p Hp). by apply Hrest.
Qed.

Lemma frequency_scaling_off_after_on_witness :
  let cli_args := flags false false [] (Some Off) in
  let w :=
    boot {[ cpufreq_file "cpuinfo_max_freq" 0 := "3400000";
            cpufreq_file "cpuinfo_max_freq" 1 := "3400000";
            cpufreq_file "cpuinfo_min_freq" 0 := "800000";
            cpufreq_file "cpuinfo_min_freq" 1 := "800000";
            cpufreq_file "scaling_min_freq" 0 := "1200000";
            cpufreq_file "scaling_min_freq" 1 := "1200000" ]} in
  let applied := world_of (rt_settings_on desktop python_json cli_args FrequencyScaling w) in
  let after := rt_settings_off desktop python_json cli_args FrequencyScaling applied in
  res_of after = Ok tt
  ∧ fs (world_of after) !! cpufreq_file "scaling_min_freq" 0 = Some "800000"
  ∧ fs (world_of after) !! cpufreq_file "scaling_min_freq" 1 = Some "800000".
Proof.
  intros cli_args w applied after.
  destruct (frequency_scaling_off_after_on desktop python_json cli_args w)
    as (Hok & Hmin & _).
  - reflexivity.
  - apply (two_cpus_files "cpuinfo_max_freq"). split; vm_compute; eauto.
  - apply (two_cpus_files "cpuinfo_min_freq"). split; vm_compute; eauto.
  - unfold after, applied. split; [exact Hok|]. split.
    + rewrite (Hmin 0); [reflexivity|]. simpl. lia.
    + rewrite (Hmin 1); [reflexivity|]. simpl. lia.
Defined.

(** X6. A missing source file stops the loop half way: when CPU [k] is
    the first without its [cpuinfo_max_freq] file, [rt_settings_on]
    raises [FileNotFoundError] for that file, the CPUs before [k] are
    already pinned, and every other file, [scaling_min_freq] of the CPUs
    from [k] on included, is as before. *)
Theorem frequency_scaling_on_stops_at_missing_file env json cli_args w k :
  simulate cli_args = false →
  k < cpu_count env →
  (∀ n, n < k → is_Some (fs w !! cpufreq_file "cpuinfo_max_freq" n)) →
  fs w !! cpufreq_file "cpuinfo_max_freq" k = None →
  let after := rt_settings_on env json cli_args FrequencyScaling w in
  res_of after = Raise (FileNotFoundError (cpufreq_file "cpuinfo_max_freq" k))
  ∧ (∀ n, n < k →
       fs (world_of after) !! cpufreq_file "scaling_min_freq" n
       = fs w !! cpufreq_file "cpuinfo_max_freq" n)
  ∧ (∀ p, (∀ n, n < k → p ≠ cpufreq_file "scaling_min_freq" n) →
       fs (world_of after) !! p = fs w !! p).
Proof.
  intros Hsim Hk Hsrc Hmissing after. subst after. simpl.
  destruct (FrequencyScaling_loop env json cli_args "CPUFREQ_MAX" "cpuinfo_max_freq"
              Hsim ltac:(tauto)) as (Hapart & Hcopies & Hraises).
  destruct (copy_loop_missing _ _ _ Hapart cpufreq_target_inj Hcopies Hraises
              (cpu_count env) 0 w k) as (Hraise & Hdst & Hrest).
  { lia. }
  { intros n Hn. apply Hsrc. lia. }
  { done. }
  split; [done|]. split.
  - intros n Hn. apply Hdst. lia.
  - intros p Hp. apply Hrest. intros n Hn. apply Hp. lia.
Qed.

Lemma frequency_scaling_on_stops_at_missing_file_witness :
  let w :=
    boot {[ cpufreq_file "cpuinfo_max_freq" 0 := "3400000";
            cpufreq_file "scaling_min_freq" 1 := "800000" ]} in
  let after :=
    rt_settings_on desktop python_json (flags false false [] (Some On))
      FrequencyScaling w in
  res_of after = Raise (FileNotFoundError (cpufreq_file "cpuinfo_max_freq" 1))
  ∧ fs (world_of after) !! cpufreq_file "scaling_min_freq" 0 = Some "3400000"
  ∧ fs (world_of after) !! cpufreq_file "scaling_min_freq" 1 = Some "800000".
Proof.
  intros w after.
  destruct (frequency_scaling_on_stops_at_missing_file desktop python_json
              (flags false false [] (Some On)) w 1) as (Hraise & Hpinned & Hrest).
  - reflexivity.
  - simpl. lia.
  - intros [|n] Hn; [vm_compute; eauto|lia].
  - vm_compute. reflexivity.
  - unfold after. split; [exact Hraise|]. split.
    + rewrite (Hpinned 0); [reflexivity|lia].
    + rewrite Hrest; [reflexivity|].
      intros [|n] Hn Heq; [|lia]. vm_compute in Heq. discriminate.
Defined.

(** ** The service controller, for real *)

(** X7. For a name in the cached unit-file list, for real, the
    controller runs exactly one process, [systemctl] as [shutil.which]
    finds it with the action and the name, after the debug message; when
    [which] finds no [systemctl] the call raises [TypeError] and runs no
    process.  The cache and the files are left as they are. *)
Theorem service_present_name_runs_systemctl env json cli_args self name action w cache :
  simulate cli_args = false →
  _available_services_cache w = Some cache →
  name ∈ cache →
  service env json cli_args self name action w
  = match which env "systemctl" with
    | Some program =>
        (Ok tt, w,
         [ELog DEBUG
            ("executing "
             +:+ as_pretty_string subprocess_call
                   [PTuple [PStr program; PStr action; PStr name]]);
          EProc [program; action; name]])
    | None =>
        (Raise TypeError, w,
         [ELog DEBUG
            ("executing "
             +:+ as_pretty_string subprocess_call
                   [PTuple [PNone; PStr action; PStr name]])])
    end.
Proof.
  intros Hsim Hcache Hname. unfold service.
  rewrite (run_bind_ok _ _ w w w []); [|done]. rewrite Hcache.
  rewrite run_ret_bind.
  rewrite (run_bind_ok _ _ w cache w []).
  2:{ unfold get_services_cache. by rewrite Hcache. }
  rewrite bool_decide_eq_true_2 by done. cbn [negb].
  unfold execute_safely. rewrite Hsim.
  destruct (which env "systemctl") as [program|]; reflexivity.
Qed.

Lemma service_present_name_runs_systemctl_witness :
  let w := World ∅ (Some ["cron"; "ssh"; "tlp"]) in
  service desktop python_json (flags false false [] (Some On)) Tlp "tlp" "stop" w
  = (Ok tt, w,
     [ELog DEBUG "executing subprocess.call(('/usr/bin/systemctl', 'stop', 'tlp'), )";
      EProc ["/usr/bin/systemctl"; "stop"; "tlp"]]).
Proof.
  intros w.
  apply (service_present_name_runs_systemctl desktop python_json
           (flags false false [] (Some On)) Tlp "tlp" "stop" w ["cron"; "ssh"; "tlp"]).
  - reflexivity.
  - reflexivity.
  - apply (bool_decide_unpack ("tlp" ∈ ["cron"; "ssh"; "tlp"])). vm_compute. exact I.
Defined.

(** X8. A failed listing is not retried: when the first call of the
    controller finds [systemctl list-unit-files] failing, the exception
    leaves the call, the cache stays behind as the empty list, and every
    later call of the controller, for any name, is the no-op of an
    unknown service. *)
Theorem failed_listing_leaves_empty_cache env json cli_args self name action w e :
  _available_services_cache w = None →
  check_output env ["systemctl"; "list-unit-files"] = Raise e →
  let first := service env json cli_args self name action w in
  first = (Raise e, World (fs w) (Some []), [EProc ["systemctl"; "list-unit-files"]])
  ∧ ∀ self' name' action',
      service env json cli_args self' name' action' (world_of first)
      = (Ok tt, world_of first,
         [ELog INFO ("service '" +:+ name' +:+ "' does not seem to exist")]).
Proof.
  intros Hcache Hfails first.
  assert (first = (Raise e, World (fs w) (Some []),
                   [EProc ["systemctl"; "list-unit-files"]])) as Hfirst.
  { unfold first, service.
    rewrite (run_bind_ok _ _ w w w []); [|done]. rewrite Hcache.
    unfold fill_services_cache, run_check_output. rewrite Hfails. reflexivity. }
  split; [exact Hfirst|]. intros self' name' action'. rewrite Hfirst.
  unfold world_of. simpl. unfold service.
  unfold mbind, M_bind, bind, get_world, get_services_cache, ret. reflexivity.
Qed.

Lemma failed_listing_leaves_empty_cache_witness :
  let no_systemd :=
    {| gettempdir := "/tmp"; which := λ _, None;
       check_output := λ _, Raise (FileNotFoundError "systemctl");
       call_status := λ _, 1%Z; cpu_count := 1;
       uname_release := "6.1.0"; uname_version := "#1 SMP";
       getuid := 0%Z; has_pstates := false |} in
  let cli_args := flags false false [] (Some On) in
  let first := service no_systemd python_json cli_args Cron "cron" "stop" (boot ∅) in
  first = (Raise (FileNotFoundError "systemctl"), World ∅ (Some []),
           [EProc ["systemctl"; "list-unit-files"]])
  ∧ service no_systemd python_json cli_args Tlp "tlp" "stop" (world_of first)
    = (Ok tt, world_of first, [ELog INFO "service 'tlp' does not seem to exist"]).
Proof.
  intros no_systemd cli_args first.
  destruct (failed_listing_leaves_empty_cache no_systemd python_json cli_args Cron
              "cron" "stop" (boot ∅) (FileNotFoundError "systemctl"))
    as [Hfirst Hlater]; [reflexivity|reflexivity|].
  split; [exact Hfirst|]. apply (Hlater Tlp "tlp" "stop").
Defined.

(** ** The unit files are listed at most once *)

Lemma listings_app t1 t2 : listings (t1 ++ t2) = listings t1 + listings t2.
Proof. unfold listings. by rewrite List.filter_app, List.length_app. Qed.

Lemma listings_cons e t :
  listings (e :: t) = (if is_listing e then 1 else 0) + listings t.
Proof. unfold listings. simpl. by destruct (is_listing e). Qed.

Lemma keeps_cache_ret {A} (a : A) : keeps_cache (ret a).
Proof. intros w. by split. Qed.

Lemma keeps_cache_raise {A} (e : exn) : keeps_cache (raise (A := A) e).
Proof. intros w. by split. Qed.

Lemma keeps_cache_emit (e : event) : is_listing e = false → keeps_cache (emit e).
Proof.
  intros He w. split; [|done]. unfold listings, emit, trace_of. simpl. by rewrite He.
Qed.

Lemma keeps_cache_bind {A B} (m : M A) (k : A → M B) :
  keeps_cache m → (∀ a, keeps_cache (k a)) → keeps_cache (m ≫= k).
Proof.
  intros Hm Hk w. specialize (Hm w).
  unfold mbind, M_bind, bind, world_of, trace_of in *.
  destruct (m w) as [[[a|e] w1] t1]; simpl in *; [|done].
  specialize (Hk a w1). unfold world_of, trace_of in Hk.
  destruct (k a w1) as [[r w2] t2]; simpl in *.
  destruct Hm as [Hl1 Hc1], Hk as [Hl2 Hc2].
  rewrite listings_app. split; [lia|auto].
Qed.

Lemma keeps_cache_for_each {A} (l : list A) (body : A → M unit) :
  (∀ x, keeps_cache (body x)) → keeps_cache (for_each l body).
Proof.
  intros Hbody. induction l as [|x l IH]; simpl.
  - apply keeps_cache_ret.
  - apply keeps_cache_bind; [apply Hbody|]. intros _. apply IH.
Qed.

Lemma keeps_cache_lift_result {A} (r : result A) : keeps_cache (lift_result r).
Proof. destruct r; [apply keeps_cache_ret|apply keeps_cache_raise]. Qed.

Lemma keeps_cache_as_str (v : pyval) : keeps_cache (as_str v).
Proof. destruct v; first [apply keeps_cache_ret|apply keeps_cache_raise]. Qed.

Lemma keeps_cache_getattr env self name : keeps_cache (getattr env self name).
Proof.
  unfold getattr.
  destruct (lookup_mro env (mro self) name);
    [apply keeps_cache_ret|apply keeps_cache_raise].
Qed.

Lemma keeps_cache_get_world : keeps_cache get_world.
Proof. intros w. by split. Qed.

Lemma keeps_cache_set_services_cache cache : keeps_cache (set_services_cache cache).
Proof. intros w. split; [done|]. intros _. by eexists. Qed.

Lemma keeps_cache_append_services_cache name :
  keeps_cache (append_services_cache name).
Proof.
  intros w. unfold append_services_cache.
  destruct (_available_services_cache w) eqn:E; (split; [done|]).
  - intros _. by eexists.
  - unfold world_of. simpl. by rewrite E.
Qed.

Lemma keeps_cache_get_services_cache : keeps_cache get_services_cache.
Proof.
  intros w. unfold get_services_cache.
  by destruct (_available_services_cache w) eqn:E.
Qed.

Lemma keeps_cache_isfile p : keeps_cache (isfile p).
Proof. intros w. by split. Qed.

Lemma keeps_cache_open_read p : keeps_cache (open_read p).
Proof. intros w. unfold open_read. by destruct (fs w !! p). Qed.

Lemma keeps_cache_open_write p data : keeps_cache (open_write p data).
Proof. intros w. by split. Qed.

Lemma keeps_cache_print line : keeps_cache (print line).
Proof. by apply keeps_cache_emit. Qed.

Lemma keeps_cache_log level msg : keeps_cache (log level msg).
Proof. by apply keeps_cache_emit. Qed.

Lemma keeps_cache__load_all_from_temp env json self :
  keeps_cache (_load_all_from_temp env json self).
Proof.
  intros w. rewrite _load_all_from_temp_run.
  by destruct (fs w !! TEMPFILE env).
Qed.

Lemma keeps_cache_py_get obj key default : keeps_cache (py_get obj key default).
Proof. destruct obj; first [apply keeps_cache_ret|apply keeps_cache_raise]. Qed.

Lemma keeps_cache_py_setitem obj key value : keeps_cache (py_setitem obj key value).
Proof. destruct obj; first [apply keeps_cache_ret|apply keeps_cache_raise]. Qed.

Create HintDb keeps_cache discriminated.

#[local] Hint Resolve keeps_cache_ret keeps_cache_raise keeps_cache_lift_result
  keeps_cache_as_str keeps_cache_getattr keeps_cache_get_world
  keeps_cache_set_services_cache keeps_cache_append_services_cache
  keeps_cache_get_services_cache keeps_cache_isfile keeps_cache_open_read
  keeps_cache_open_write keeps_cache_print keeps_cache_log
  keeps_cache__load_all_from_temp keeps_cache_py_get keeps_cache_py_setitem
  : keeps_cache.

Ltac keeps_cache_steps :=
  repeat first
    [ solve [eauto with keeps_cache]
    | progress cbv beta zeta
    | apply keeps_cache_bind; [|intros ?]
    | apply keeps_cache_for_each; intros ?
    | match goal with
      | |- keeps_cache (if ?b then _ else _) => destruct b
      | |- keeps_cache (match ?x with _ => _ end) => destruct x
      end ].

Lemma keeps_cache_store_to_temp env json self key value :
  keeps_cache (store_to_temp env json self key value).
Proof. unfold store_to_temp. keeps_cache_steps. Qed.

Lemma keeps_cache_load_from_temp env json self key default :
  keeps_cache (load_from_temp env json self key default).
Proof. unfold load_from_temp. keeps_cache_steps. Qed.

#[local] Hint Resolve keeps_cache_store_to_temp keeps_cache_load_from_temp
  : keeps_cache.

Lemma keeps_cache_copyfile src dst : keeps_cache (copyfile src dst).
Proof. unfold copyfile. keeps_cache_steps. Qed.

Lemma keeps_cache__store_current_and_replace env json self file_name value :
  keeps_cache (_store_current_and_replace env json self file_name value).
Proof. unfold _store_current_and_replace, path_join. keeps_cache_steps. Qed.

Lemma keeps_cache__restore_or_set env json self file_name default :
  keeps_cache (_restore_or_set env json self file_name default).
Proof. unfold _restore_or_set, path_join. keeps_cache_steps. Qed.

(** [subprocess.call] on a command line of three parts is no listing. *)
Lemma keeps_cache_call_three env program action name :
  keeps_cache (call env (PTuple [program; PStr action; PStr name])).
Proof.
  unfold call. destruct program; simpl; try apply keeps_cache_raise.
  apply keeps_cache_bind; [|intros _; apply keeps_cache_ret].
  apply keeps_cache_emit. apply bool_decide_eq_false_2.
  intros Heq. by apply (f_equal List.length) in Heq.
Qed.

#[local] Hint Resolve keeps_cache_copyfile keeps_cache__store_current_and_replace
  keeps_cache__restore_or_set keeps_cache_call_three : keeps_cache.

(** The calls of [execute_safely] the script makes: on [systemctl] with an
    action and a name, on [copyfile], on the two bound methods. *)
Lemma keeps_cache_execute_safely env json cli_args self function args :
  (function = subprocess_call →
   ∃ program action name, args = [PTuple [program; PStr action; PStr name]]) →
  keeps_cache (execute_safely env json cli_args self function args).
Proof.
  intros Hcall. unfold execute_safely.
  destruct (simulate cli_args); [keeps_cache_steps|].
  apply keeps_cache_bind; [apply keeps_cache_log|]. intros _.
  destruct function.
  - destruct Hcall as (program & action & name & ->); [done|].
    apply keeps_cache_call_three.
  - unfold apply_callable. keeps_cache_steps.
  - unfold apply_callable. keeps_cache_steps.
  - unfold apply_callable. keeps_cache_steps.
Qed.

Lemma keeps_cache_lists_once {A} (m : M A) : keeps_cache m → lists_once m.
Proof.
  intros Hm w. destruct (Hm w) as [Hl Hc]. rewrite Hl.
  split; [lia|]. split; [done|]. intros [H|H]; [auto|lia].
Qed.

Lemma lists_once_bind {A B} (m : M A) (k : A → M B) :
  lists_once m → (∀ a, lists_once (k a)) → lists_once (m ≫= k).
Proof.
  intros Hm Hk w. specialize (Hm w).
  unfold mbind, M_bind, bind, world_of, trace_of in *.
  destruct (m w) as [[[a|e] w1] t1]; simpl in *; [|done].
  specialize (Hk a w1). unfold world_of, trace_of in Hk.
  destruct (k a w1) as [[r w2] t2]; simpl in *.
  destruct Hm as (Hle1 & Hzero1 & Hsome1), Hk as (Hle2 & Hzero2 & Hsome2).
  rewrite listings_app.
  destruct (_available_services_cache w) as [cache|] eqn:Ecache.
  - assert (is_Some (Some cache)) as Hs by by eexists.
    rewrite (Hzero1 Hs). rewrite (Hzero2 (Hsome1 (or_introl Hs))).
    split; [lia|]. split; [done|]. intros _. apply Hsome2. left. auto.
  - destruct (decide (listings t1 = 1)) as [H1|H1].
    + rewrite (Hzero2 (Hsome1 (or_intror H1))).
      split; [lia|]. split; [by intros [? ?]|]. intros _.
      apply Hsome2. left. auto.
    + assert (listings t1 = 0) as -> by lia.
      split; [lia|]. split; [by intros [? ?]|]. intros [[? ?]|H]; [done|].
      apply Hsome2. right. lia.
Qed.

Lemma lists_then_keeps_cache {A B} (m : M A) (k : A → M B) w :
  listings (trace_of (m w)) = 1 →
  is_Some (_available_services_cache (world_of (m w))) →
  (∀ a, keeps_cache (k a)) →
  listings (trace_of ((m ≫= k) w)) = 1
  ∧ is_Some (_available_services_cache (world_of ((m ≫= k) w))).
Proof.
  intros Hone Hsome Hk.
  unfold mbind, M_bind, bind, world_of, trace_of in *.
  destruct (m w) as [[[a|e] w1] t1]; simpl in *; [|done].
  specialize (Hk a w1). unfold world_of, trace_of in Hk.
  destruct (k a w1) as [[r w2] t2]; simpl in *.
  destruct Hk as [Hl Hc]. rewrite listings_app, Hone, Hl. split; [done|auto].
Qed.

Lemma lists_once_for_each {A} (l : list A) (body : A → M unit) :
  (∀ x, lists_once (body x)) → lists_once (for_each l body).
Proof.
  intros Hbody. induction l as [|x l IH]; simpl.
  - apply keeps_cache_lists_once, keeps_cache_ret.
  - apply lists_once_bind; [apply Hbody|]. intros _. apply IH.
Qed.

(** Filling the cache lists the unit files once and leaves a cache, also
    when the listing fails. *)
Lemma fill_services_cache_lists env w :
  listings (trace_of (fill_services_cache env w)) = 1
  ∧ is_Some (_available_services_cache (world_of (fill_services_cache env w))).
Proof.
  unfold fill_services_cache.
  rewrite (run_bind_ok _ _ w tt (World (fs w) (Some [])) []); [|done].
  unfold run_check_output.
  destruct (check_output env ["systemctl"; "list-unit-files"]) as [output|e].
  - rewrite (run_bind_ok _ _ _ output (World (fs w) (Some []))
               [EProc ["systemctl"; "list-unit-files"]]); [|done].
    match goal with
    | |- context [res_of (?m ?w1)] =>
        assert (keeps_cache m) as Hrest by keeps_cache_steps;
        destruct (Hrest w1) as [Hl Hc]
    end.
    unfold trace_of, world_of in *. simpl in *.
    rewrite listings_cons, Hl. split; [done|]. apply Hc. by eexists.
  - split; [done|]. by eexists.
Qed.

Lemma lists_once_service env json cli_args self name action :
  lists_once (service env json cli_args self name action).
Proof.
  assert (keeps_cache
            (cache ← get_services_cache;
             if negb (bool_decide (name ∈ cache)) then
               log INFO ("service '" +:+ name +:+ "' does not seem to exist")
             else
               let systemctl :=
                 match which env "systemctl" with
                 | Some p => PStr p
                 | None => PNone
                 end in
               execute_safely env json cli_args self subprocess_call
                 [PTuple [systemctl; PStr action; PStr name]];;
               ret tt)) as Hrest.
  { apply keeps_cache_bind; [apply keeps_cache_get_services_cache|]. intros cache.
    destruct (negb _); [apply keeps_cache_log|]. cbv zeta.
    apply keeps_cache_bind; [|intros _; apply keeps_cache_ret].
    apply keeps_cache_execute_safely. intros _. by eexists _, _, _. }
  intros w. unfold service.
  rewrite (run_bind_ok _ _ w w w []); [|done]. cbn [app]. rewrite run_eta.
  destruct (_available_services_cache w) as [cache|] eqn:Ecache.
  - rewrite run_ret_bind.
    destruct (keeps_cache_lists_once _ Hrest w) as (Hle & Hzero & Hsome).
    by rewrite Ecache in Hzero, Hsome.
  - destruct (fill_services_cache_lists env w) as [Hone Hfilled].
    destruct (lists_then_keeps_cache (fill_services_cache env) _ w Hone Hfilled
                (λ _, Hrest)) as [Hone' Hfilled'].
    split; [|split].
    + etrans; [apply Nat.eq_le_incl, Hone'|done].
    + by intros [? ?].
    + intros _. exact Hfilled'.
Qed.

Lemma lists_once_rt_settings env json cli_args self :
  lists_once (rt_settings_on env json cli_args self)
  ∧ lists_once (rt_settings_off env json cli_args self).
Proof.
  pose proof (lists_once_service env json cli_args self) as Hservice.
  assert (∀ source cpu_num,
            keeps_cache (FrequencyScaling_copy env json cli_args self source cpu_num))
    as Hcopy.
  { intros source cpu_num. unfold FrequencyScaling_copy. keeps_cache_steps.
    by apply keeps_cache_execute_safely. }
  assert (∀ function args, function ≠ subprocess_call →
            keeps_cache (execute_safely env json cli_args self function args))
    as Hexec.
  { intros function args Hne. by apply keeps_cache_execute_safely. }
  destruct self; simpl; split;
    try (apply keeps_cache_lists_once, keeps_cache_ret);
    try (apply keeps_cache_lists_once; unfold CheckForRealTimeKernel_on;
         by keeps_cache_steps);
    try (apply lists_once_bind; [apply Hservice|intros _; apply Hservice]);
    try apply Hservice;
    try (apply keeps_cache_lists_once, keeps_cache_for_each; intros cpu_num;
         apply Hcopy);
    (apply keeps_cache_lists_once; keeps_cache_steps; by apply Hexec).
Qed.

(** X9. A run lists the unit files at most once, whatever the command
    line and the machine, and not at all from a state where the cache
    exists: the cache of the service controller is filled once per run. *)
Theorem unit_files_listed_at_most_once env json cli_args w :
  listings (trace_of (main env json cli_args w)) ≤ 1
  ∧ (is_Some (_available_services_cache w) →
     listings (trace_of (main env json cli_args w)) = 0).
Proof.
  assert (lists_once (main env json cli_args)) as Hmain.
  { unfold main. apply lists_once_bind.
    { apply keeps_cache_lists_once. unfold list_and_exit. keeps_cache_steps. }
    intros _. apply lists_once_bind.
    { apply keeps_cache_lists_once. unfold resolve_ignored. keeps_cache_steps. }
    intros modules. unfold run_settings. apply lists_once_bind.
    { apply keeps_cache_lists_once. keeps_cache_steps. }
    intros _. destruct (on_or_off cli_args) as [[]|].
    - apply lists_once_for_each. intros m. apply lists_once_bind.
      + apply keeps_cache_lists_once, keeps_cache_log.
      + intros _. apply lists_once_rt_settings.
    - apply lists_once_for_each. intros m. apply lists_once_bind.
      + apply keeps_cache_lists_once, keeps_cache_log.
      + intros _. apply lists_once_rt_settings.
    - apply keeps_cache_lists_once, keeps_cache_print. }
  destruct (Hmain w) as (Hle & Hzero & _). by split.
Qed.

(** ** The ignore list *)

Lemma filter_agree {A} (P Q : A → Prop) `{∀ x, Decision (P x)} `{∀ x, Decision (Q x)}
    (l : list A) :
  (∀ x, x ∈ l → (P x ↔ Q x)) → filter P l = filter Q l.
Proof.
  induction l as [|x l IH]; intros Hagree; [done|].
  rewrite !filter_cons, IH.
  - destruct (decide (P x)) as [HP|HP], (decide (Q x)) as [HQ|HQ]; try done.
    + destruct HQ. by apply (Hagree x); [apply list_elem_of_here|].
    + destruct HP. by apply (Hagree x); [apply list_elem_of_here|].
  - intros y Hy. apply Hagree. by apply list_elem_of_further.
Qed.

Lemma list_remove_middle `{EqDecision A} (x : A) (kept l : list A) :
  x ∉ kept → list_remove x (kept ++ x :: l) = Some (kept ++ l).
Proof.
  induction kept as [|y kept IH]; intros Hx; simpl.
  - by rewrite decide_True.
  - apply not_elem_of_cons in Hx as [Hne Hx].
    rewrite decide_False by done. by rewrite IH.
Qed.

Lemma list_remove_Permutation `{EqDecision A} (x : A) (l l' : list A) :
  list_remove x l = Some l' → l ≡ₚ x :: l'.
Proof.
  revert l'. induction l as [|y l IH]; intros l' Hremove; [done|].
  simpl in Hremove. destruct (decide (y = x)) as [->|Hne].
  - by injection Hremove as ->.
  - destruct (list_remove x l) as [l0|]; [|done]. injection Hremove as <-.
    rewrite (IH l0 eq_refl). apply Permutation_swap.
Qed.

(** The ignore loop, from any point of its run: [kept] are the modules
    already passed over and kept, [modules] the ones still to come. *)
Lemma assort_ignored_run modules : ∀ kept ignore,
  NoDup (__name__ <$> modules) →
  (∀ m, m ∈ modules → m ∉ kept) →
  ∃ ignore_left,
    assort_ignored modules (kept ++ modules) ignore
    = Ok (kept ++ filter (λ m, __name__ m ∉ ignore) modules, ignore_left)
    ∧ (ignore_left = [] ↔
       NoDup ignore ∧ ∀ name, name ∈ ignore → name ∈ __name__ <$> modules).
Proof.
  induction modules as [|m modules IH]; intros kept ignore Hnames Hfresh.
  - exists ignore. split; [done|]. split.
    + intros ->. split; [apply NoDup_nil_2|]. by intros name ?%elem_of_nil.
    + intros [_ Hsub]. destruct ignore as [|name ignore]; [done|].
      exfalso. apply (not_elem_of_nil name).
      apply (Hsub name), list_elem_of_here.
  - rewrite fmap_cons in Hnames. apply NoDup_cons in Hnames as [Hm Hnames].
    assert (∀ m', m' ∈ modules → __name__ m' ≠ __name__ m) as Hother.
    { intros m' Hm' Heq. apply Hm. rewrite <- Heq. by apply list_elem_of_fmap_2. }
    cbn [assort_ignored]. case_bool_decide as Hin.
    + rewrite list_remove_middle by (apply Hfresh, list_elem_of_here).
      destruct (list_remove_elem (__name__ m) ignore Hin) as (ignore' & Hremove & _).
      rewrite Hremove.
      pose proof (list_remove_Permutation _ _ _ Hremove) as Hperm.
      destruct (IH kept ignore' Hnames) as (left & -> & Hleft).
      { intros m' Hm'. by apply Hfresh, list_elem_of_further. }
      assert (∀ name, name ∈ ignore ↔ name = __name__ m ∨ name ∈ ignore') as Hmem.
      { intros name. by rewrite Hperm, elem_of_cons. }
      assert (NoDup ignore ↔ (__name__ m ∉ ignore') ∧ NoDup ignore') as Hdup.
      { by rewrite Hperm, NoDup_cons. }
      exists left. split.
      * rewrite filter_cons_False by (intros Hnot; by apply Hnot).
        do 3 f_equal. apply filter_agree. intros m' Hm'.
        rewrite Hmem. specialize (Hother m' Hm'). tauto.
      * rewrite Hleft, Hdup. split.
        -- intros [Hnodup Hsub]. split.
           ++ split; [|done]. intros Hdouble. by apply Hm, Hsub.
           ++ intros name [->|Hname]%Hmem; [apply list_elem_of_here|].
              by apply list_elem_of_further, Hsub.
        -- intros [[Hfirst Hnodup] Hsub]. split; [done|]. intros name Hname.
           assert (name ∈ ignore) as Hname' by (apply Hmem; by right).
           apply Hsub, elem_of_cons in Hname' as [->|?]; [done|done].
    + replace (kept ++ m :: modules) with ((kept ++ [m]) ++ modules);
        [|by rewrite <- app_assoc].
      destruct (IH (kept ++ [m]) ignore Hnames) as (left & -> & Hleft).
      { intros m' Hm'. apply not_elem_of_app. split.
        - by apply Hfresh, list_elem_of_further.
        - intros ->%list_elem_of_singleton. by apply (Hother m Hm'). }
      exists left. split.
      * rewrite filter_cons_True by done. by rewrite <- app_assoc.
      * rewrite Hleft. split; intros [Hnodup Hsub]; (split; [done|]).
        -- intros name Hname. by apply list_elem_of_further, Hsub.
        -- intros name Hname. pose proof (Hsub name Hname) as Hreg.
           apply elem_of_cons in Hreg as [->|?]; done.
Qed.

Lemma module_names_NoDup : NoDup module_names.
Proof. apply (bool_decide_unpack (NoDup module_names)). vm_compute. exact I. Qed.

Lemma resolve_ignored_run cli_args w :
  ∃ ignore_left,
    (ignore_left = [] ↔
     NoDup (ignore cli_args) ∧ ∀ name, name ∈ ignore cli_args → name ∈ module_names)
    ∧ resolve_ignored cli_args w
      = if bool_decide (ignore_left = []) then
          (Ok (filter (λ m, __name__ m ∉ ignore cli_args) settings_modules), w, [])
        else
          (Raise (SystemExit 1), w,
           [ELog ERROR ("Could not find settings modules to ignore: "
                        +:+ py_repr (PList (PStr <$> ignore_left)))]).
Proof.
  destruct (assort_ignored_run settings_modules [] (ignore cli_args)
              module_names_NoDup) as (left & Hassort & Hleft).
  { intros m _. apply not_elem_of_nil. }
  exists left. split; [exact Hleft|].
  unfold resolve_ignored. rewrite !app_nil_l in Hassort. rewrite Hassort.
  unfold lift_result. rewrite run_ret_bind.
  by case_bool_decide.
Qed.

(** X10. The ignore check passes exactly for distinct registered names:
    when the names after [--ignore] are pairwise different and each is
    the name of a registered module, the new module list is the
    registration-order list without the named modules and nothing is
    logged; in every other case the script logs the error and leaves
    with [exit(1)]. *)
Theorem ignore_check_passes_iff cli_args w :
  (NoDup (ignore cli_args) ∧ (∀ name, name ∈ ignore cli_args → name ∈ module_names) →
   resolve_ignored cli_args w
   = (Ok (filter (λ m, __name__ m ∉ ignore cli_args) settings_modules), w, []))
  ∧ (¬ (NoDup (ignore cli_args)
        ∧ ∀ name, name ∈ ignore cli_args → name ∈ module_names) →
     res_of (resolve_ignored cli_args w) = Raise (SystemExit 1)
     ∧ world_of (resolve_ignored cli_args w) = w
     ∧ ∃ msg, trace_of (resolve_ignored cli_args w) = [ELog ERROR msg]).
Proof.
  destruct (resolve_ignored_run cli_args w) as (left & Hleft & ->).
  split.
  - intros Hvalid. by rewrite bool_decide_eq_true_2 by by apply Hleft.
  - intros Hinvalid. rewrite bool_decide_eq_false_2 by (by rewrite Hleft).
    repeat split. by eexists.
Qed.

(** X11. A registered name given twice is fatal: with [--ignore N N] the
    loop removes the module and one [N], the other [N] stays in the
    ignore list, and the script reports it and leaves with [exit(1)]
    without running a module. *)
Theorem ignore_same_name_twice_is_fatal env json cli_args w N :
  list_ cli_args = false →
  ignore cli_args = [N; N] →
  N ∈ module_names →
  main env json cli_args w
  = (Raise (SystemExit 1), w,
     [ELog ERROR ("Could not find settings modules to ignore: "
                  +:+ py_repr (PList [PStr N]))]).
Proof.
  intros Hlist Hignore HN.
  unfold main, list_and_exit, resolve_ignored. rewrite Hlist, Hignore.
  rewrite run_ret_bind.
  unfold module_names, settings_modules in HN. simpl in HN.
  repeat (apply elem_of_cons in HN as [->|HN]; [by vm_compute|]).
  by apply elem_of_nil in HN.
Qed.

Lemma ignore_same_name_twice_is_fatal_witness :
  main desktop python_json (flags false false ["Cron"; "Cron"] (Some On)) (boot ∅)
  = (Raise (SystemExit 1), boot ∅,
     [ELog ERROR "Could not find settings modules to ignore: ['Cron']"]).
Proof.
  apply (ignore_same_name_twice_is_fatal desktop python_json
           (flags false false ["Cron"; "Cron"] (Some On)) (boot ∅) "Cron").
  - reflexivity.
  - reflexivity.
  - apply (bool_decide_unpack ("Cron" ∈ module_names)). vm_compute. exact I.
Defined.

(** X12. Without [on] or [off] the script only prints its hint: for a
    command line without [--list] whose ignore names are distinct and
    registered, the run returns normally (exit status 0), prints the one
    line, warns nobody about root, and runs no module. *)
Theorem no_mode_prints_hint env json cli_args w :
  list_ cli_args = false →
  on_or_off cli_args = None →
  NoDup (ignore cli_args) →
  (∀ name, name ∈ ignore cli_args → name ∈ module_names) →
  main env json cli_args w
  = (Ok tt, w,
     [EPrint "please provide either 'on' or 'off' as last argument (see -h)"])
  ∧ exit_status (res_of (main env json cli_args w)) = 0%Z.
Proof.
  intros Hlist Hmode Hnodup Hsub.
  assert (main env json cli_args w
          = (Ok tt, w,
             [EPrint "please provide either 'on' or 'off' as last argument (see -h)"]))
    as Hmain.
  { destruct (resolve_ignored_run cli_args w) as (left & Hleft & Hresolve).
    rewrite bool_decide_eq_true_2 in Hresolve by by apply Hleft.
    unfold main, list_and_exit. rewrite Hlist, run_ret_bind.
    rewrite (run_bind_ok _ _ _ _ _ _ Hresolve).
    unfold run_settings. by rewrite Hmode. }
  by rewrite Hmain.
Qed.

Lemma no_mode_prints_hint_witness :
  main desktop python_json (flags false false ["Tlp"; "Cron"] None) (boot ∅)
  = (Ok tt, boot ∅,
     [EPrint "please provide either 'on' or 'off' as last argument (see -h)"])
  ∧ exit_status
      (res_of (main desktop python_json (flags false false ["Tlp"; "Cron"] None)
                 (boot ∅))) = 0%Z.
Proof.
  apply (no_mode_prints_hint desktop python_json
           (flags false false ["Tlp"; "Cron"] None) (boot ∅)).
  - reflexivity.
  - reflexivity.
  - apply (bool_decide_unpack (NoDup ["Tlp"; "Cron"])). vm_compute. exact I.
  - intros name Hname. simpl in Hname.
    repeat (apply elem_of_cons in Hname as [->|Hname];
            [apply (bool_decide_unpack (_ ∈ module_names)); vm_compute; exact I|]).
    by apply elem_of_nil in Hname.
Defined.

(** ** The kernel check *)

Lemma readline_empty text : PyStr.readline text = "" ↔ text = "".
Proof.
  destruct text as [|c text]; simpl; [done|].
  by destruct (Ascii.eqb c PyStr.newline || Ascii.eqb c PyStr.cr).
Qed.

(** The first line is ["1"] only for a file that holds ["1"] and nothing
    else, not even a line end. *)
Lemma readline_is_1 text : PyStr.readline text = "1" ↔ text = "1".
Proof.
  destruct text as [|c text]; simpl; [done|].
  destruct (Ascii.eqb c PyStr.newline || Ascii.eqb c PyStr.cr) eqn:E.
  - split; [done|]. intros [= -> ->]. done.
  - split.
    + intros [= -> Hrest]. apply (proj1 (readline_empty text)) in Hrest. by subst.
    + intros [= -> ->]. done.
Qed.

(** X13. The kernel check only looks: whatever the command line,
    [CheckForRealTimeKernel.rt_settings_on] returns, changes nothing,
    writes no file and runs no process.  It finds the marker file only
    when [/sys/kernel/realtime] holds exactly ["1"], with no line end
    after it, and it warns exactly when the file is not so and neither
    [uname]'s release ends in ["+rt"] nor its version has [" RT "] or
    [" PREEMPT "]. *)
Theorem kernel_check_only_looks env json cli_args w :
  let run := rt_settings_on env json cli_args CheckForRealTimeKernel w in
  res_of run = Ok tt
  ∧ world_of run = w
  ∧ Forall (λ e, ¬ acts e) (trace_of run)
  ∧ (ELog DEBUG "found /sys/kernel/realtime with '1' in it" ∈ trace_of run
     ↔ fs w !! "/sys/kernel/realtime" = Some "1")
  ∧ (ELog WARNING "You don't seem to be using a real-time kernel." ∈ trace_of run
     ↔ fs w !! "/sys/kernel/realtime" ≠ Some "1"
       ∧ PyStr.endswith (uname_release env) "+rt" = false
       ∧ PyStr.contains " RT " (uname_version env) = false
       ∧ PyStr.contains " PREEMPT " (uname_version env) = false).
Proof.
  intros run. subst run. cbn [rt_settings_on]. unfold CheckForRealTimeKernel_on.
  unfold mbind, M_bind, bind, isfile, open_read, ret, log, emit.
  unfold res_of, world_of, trace_of. cbn [fst snd].
  destruct (fs w !! "/sys/kernel/realtime") as [text|] eqn:Hfile; simpl;
    rewrite ?Hfile; simpl.
  - destruct (String.eqb (PyStr.readline text) "1") eqn:Hline; simpl.
    + apply String.eqb_eq in Hline. apply (proj1 (readline_is_1 text)) in Hline.
      subst text.
      split; [done|]. split; [done|]. split; [repeat (constructor; [exact (λ H, H)|]); constructor|].
      split; [|split].
      * split; [done|]. intros _. apply list_elem_of_further, list_elem_of_here.
      * intros Hin. repeat (apply elem_of_cons in Hin as [Hin|Hin]; [done|]).
        by apply elem_of_nil in Hin.
      * by intros [? _].
    + assert (text ≠ "1") as Hne.
      { intros ->. by vm_compute in Hline. }
      destruct (PyStr.endswith _ _), (PyStr.contains " RT " _),
        (PyStr.contains " PREEMPT " _); simpl;
        (split; [done|]; split; [done|]; split; [repeat (constructor; [exact (λ H, H)|]); constructor|];
         split; split;
         try (intros Hin;
              repeat (apply elem_of_cons in Hin as [Hin|Hin]; [done|]);
              by apply elem_of_nil in Hin);
         try (intros [= ?]; congruence);
         try (intros (_ & ? & ? & ?); congruence);
         try (intros _; apply list_elem_of_further, list_elem_of_here);
         try (intros _; split; [congruence|done])).
  - destruct (PyStr.endswith _ _), (PyStr.contains " RT " _),
      (PyStr.contains " PREEMPT " _); simpl;
      (split; [done|]; split; [done|]; split; [repeat (constructor; [exact (λ H, H)|]); constructor|];
       split; split;
       try (intros Hin;
            repeat (apply elem_of_cons in Hin as [Hin|Hin]; [done|]);
            by apply elem_of_nil in Hin);
       try done;
       try (intros (_ & ? & ? & ?); congruence);
       try (intros _; apply list_elem_of_here)).
Qed.

(** ** Simulated and real runs of the turbo-boost module *)

Lemma IntelPState_raises env json cli_args w :
  simulate cli_args = false →
  res_of (rt_settings_on env json cli_args IntelPState w)
  = Raise (AttributeError "IntelPState" "PSTATE_BASE_PATH")
  ∧ res_of (rt_settings_off env json cli_args IntelPState w)
  = Raise (AttributeError "IntelPState" "PSTATE_BASE_PATH").
Proof.
  intros Hsim. unfold rt_settings_on, rt_settings_off, execute_safely.
  rewrite Hsim. split; reflexivity.
Qed.

(** X14. Simulate mode is no faithful rehearsal of the turbo-boost
    module: on one machine, the simulated [rt_settings_on] and
    [rt_settings_off] return normally after printing the call they would
    make, while the real ones raise [AttributeError]. *)
Theorem simulate_hides_turbo_failure env json simulated_args real_args w :
  simulate simulated_args = true →
  simulate real_args = false →
  rt_settings_on env json simulated_args IntelPState w
  = (Ok tt, w,
     [EPrint ("simulating - would execute: __main__._store_current_and_replace("
              +:+ "'/sys/devices/system/cpu/intel_pstate/no_turbo', 0, )")])
  ∧ rt_settings_off env json simulated_args IntelPState w
  = (Ok tt, w,
     [EPrint ("simulating - would execute: __main__._restore_or_set("
              +:+ "'/sys/devices/system/cpu/intel_pstate/no_turbo', 1, )")])
  ∧ res_of (rt_settings_on env json real_args IntelPState w)
  = Raise (AttributeError "IntelPState" "PSTATE_BASE_PATH")
  ∧ res_of (rt_settings_off env json real_args IntelPState w)
  = Raise (AttributeError "IntelPState" "PSTATE_BASE_PATH").
Proof.
  intros Hsim Hreal.
  destruct (IntelPState_raises env json real_args w Hreal) as [Hon Hoff].
  split; [|split; [|by split]].
  - unfold rt_settings_on, execute_safely. rewrite Hsim. reflexivity.
  - unfold rt_settings_off, execute_safely. rewrite Hsim. reflexivity.
Qed.

Lemma simulate_hides_turbo_failure_witness :
  let w := boot {[ NO_TURBO := "0" ]} in
  res_of (rt_settings_on desktop python_json (flags true false [] (Some On))
            IntelPState w) = Ok tt
  ∧ res_of (rt_settings_on desktop python_json (flags false false [] (Some On))
              IntelPState w)
    = Raise (AttributeError "IntelPState" "PSTATE_BASE_PATH").
Proof.
  intros w.
  destruct (simulate_hides_turbo_failure desktop python_json
              (flags true false [] (Some On)) (flags false false [] (Some On)) w)
    as (Hsim & _ & Hreal & _); [reflexivity|reflexivity|].
  rewrite Hsim. by split.
Defined.

(** ** A real run always ends in an exception *)

Lemma for_each_raises {A} (l : list A) (body : A → M unit) x :
  x ∈ l →
  (∀ w, ∃ e, res_of (body x w) = Raise e) →
  ∀ w, ∃ e, res_of (for_each l body w) = Raise e.
Proof.
  intros Hx Hbody. induction l as [|y l IH]; intros w; [by apply elem_of_nil in Hx|].
  cbn [for_each]. destruct (res_of (body y w)) as [[]|e] eqn:Hres.
  - destruct (run_bind_res_ok (body y) (λ _, for_each l body) w tt Hres) as [-> _].
    apply elem_of_cons in Hx as [->|Hx].
    + destruct (Hbody w) as [e He]. congruence.
    + by apply IH.
  - destruct (run_bind_res_raise (body y) (λ _, for_each l body) w e Hres) as [-> _].
    by exists e.
Qed.

(** X15. For real, a run with [on] or [off] that does not ignore the
    turbo-boost module never completes: whatever the machine, the script
    ends in an exception, at the ignore check, in an earlier module, or
    at the latest in [IntelPState]. *)
Theorem real_run_never_completes env json cli_args w :
  simulate cli_args = false →
  list_ cli_args = false →
  is_Some (on_or_off cli_args) →
  "IntelPState" ∉ ignore cli_args →
  ∃ e, res_of (main env json cli_args w) = Raise e.
Proof.
  intros Hsim Hlist [mode Hmode] Hturbo.
  unfold main, list_and_exit. rewrite Hlist, run_ret_bind.
  destruct (resolve_ignored_run cli_args w) as (left & _ & Hresolve).
  case_bool_decide.
  - rewrite (run_bind_ok _ _ _ _ _ _ Hresolve). unfold res_of at 1. cbn [fst].
    set (modules := filter (λ m, __name__ m ∉ ignore cli_args) settings_modules).
    assert (IntelPState ∈ modules) as Hin.
    { apply list_elem_of_filter. split; [done|].
      apply (bool_decide_unpack (IntelPState ∈ settings_modules)). vm_compute. exact I. }
    unfold run_settings. rewrite Hmode.
    match goal with
    | |- ∃ e, res_of ((?warn ≫= ?k) w) = Raise e =>
        assert (∃ w1, res_of (warn w) = Ok tt ∧ world_of (warn w) = w1) as (w1 & Hwarn & Hw1)
          by (destruct (_ && _); by eexists);
        destruct (run_bind_res_ok warn k w tt Hwarn) as [-> _]; rewrite Hw1
    end.
    destruct mode.
    + apply (for_each_raises modules _ IntelPState Hin). intros w2.
      unfold log. rewrite run_emit_bind. unfold res_of at 1. cbn [fst].
      destruct (IntelPState_raises env json cli_args w2 Hsim) as [-> _]. by eexists.
    + apply (for_each_raises modules _ IntelPState Hin). intros w2.
      unfold log. rewrite run_emit_bind. unfold res_of at 1. cbn [fst].
      destruct (IntelPState_raises env json cli_args w2 Hsim) as [_ ->]. by eexists.
  - rewrite (run_bind_raise _ _ _ _ _ _ Hresolve). by eexists.
Qed.

Lemma real_run_never_completes_witness :
  ∃ e, res_of (main desktop python_json (flags false false ["Cron"; "Tlp"] (Some On))
                 (boot {[ cpufreq_file "cpuinfo_max_freq" 0 := "3400000";
                          cpufreq_file "cpuinfo_max_freq" 1 := "3400000";
                          NO_TURBO := "0" ]})) = Raise e.
Proof.
  apply (real_run_never_completes desktop python_json
           (flags false false ["Cron"; "Tlp"] (Some On))).
  - reflexivity.
  - reflexivity.
  - by eexists.
  - apply (bool_decide_eq_false_1 ("IntelPState" ∈ ["Cron"; "Tlp"])).
    vm_compute. reflexivity.
Defined.

(** ** Reading the listing of unit files *)

Lemma string_app_cons c a b : String c a +:+ b = String c (a +:+ b).
Proof. reflexivity. Qed.

Lemma string_app_empty b : "" +:+ b = b.
Proof. reflexivity. Qed.

Lemma has_char_app c a b :
  PyStr.has_char c (a +:+ b) = PyStr.has_char c a || PyStr.has_char c b.
Proof.
  induction a as [|d a IH]; [done|]. rewrite string_app_cons.
  cbn [PyStr.has_char]. by rewrite IH, orb_assoc.
Qed.

Lemma split_no_sep c a : PyStr.has_char c a = false → PyStr.split c a = [a].
Proof.
  induction a as [|d a IH]; [done|]. cbn [PyStr.has_char PyStr.split].
  intros [Hd Ha]%orb_false_elim. rewrite Ascii.eqb_sym, Hd. by rewrite (IH Ha).
Qed.

Lemma split_app_sep c a b :
  PyStr.has_char c a = false →
  PyStr.split c (a +:+ String c b) = a :: PyStr.split c b.
Proof.
  induction a as [|d a IH]; intros Ha.
  - rewrite string_app_empty. cbn [PyStr.split]. by rewrite Ascii.eqb_refl.
  - cbn [PyStr.has_char] in Ha. apply orb_false_elim in Ha as [Hd Ha].
    rewrite string_app_cons. cbn [PyStr.split].
    rewrite Ascii.eqb_sym, Hd. by rewrite (IH Ha).
Qed.

(** Splitting undoes joining when no part has the separator. *)
Lemma split_join c parts :
  parts ≠ [] →
  Forall (λ part, PyStr.has_char c part = false) parts →
  PyStr.split c (PyStr.join (PyStr.char c) parts) = parts.
Proof.
  induction parts as [|part parts IH]; intros Hne Hparts; [done|].
  apply Forall_cons in Hparts as [Hpart Hparts].
  destruct parts as [|part' parts].
  - by apply split_no_sep.
  - change (PyStr.join (PyStr.char c) (part :: part' :: parts))
      with (part +:+ String c (PyStr.join (PyStr.char c) (part' :: parts))).
    rewrite split_app_sep by done. by rewrite IH.
Qed.

Lemma rfind_from_absent c i found s :
  PyStr.has_char c s = false → PyStr.rfind_from c i found s = found.
Proof.
  revert i found. induction s as [|d s IH]; intros i found Hs; [done|].
  cbn [PyStr.has_char] in Hs. apply orb_false_elim in Hs as [Hd Hs].
  cbn [PyStr.rfind_from]. rewrite Hd. by apply IH.
Qed.

Lemma rfind_from_last c i found a b :
  PyStr.has_char c b = false →
  PyStr.rfind_from c i found (a +:+ String c b) = (i + Z.of_nat (String.length a))%Z.
Proof.
  intros Hb. revert i found. induction a as [|d a IH]; intros i found.
  - rewrite string_app_empty. cbn [PyStr.rfind_from String.length].
    rewrite Ascii.eqb_refl. rewrite rfind_from_absent by done. lia.
  - rewrite string_app_cons. cbn [PyStr.rfind_from String.length]. rewrite IH. lia.
Qed.

Lemma take_str_app a b : PyStr.take_str (String.length a) (a +:+ b) = a.
Proof.
  induction a as [|d a IH]; [by destruct b|].
  rewrite string_app_cons. cbn [String.length PyStr.take_str]. by rewrite IH.
Qed.

(** [splitext] takes the extension off a unit file name. *)
Lemma splitext_root_unit root ext rest :
  well_formed_entry (root, ext, rest) = true →
  PyStr.splitext_root (root +:+ "." +:+ ext) = root.
Proof.
  unfold well_formed_entry. rewrite !andb_true_iff, !negb_true_iff.
  intros ((((((((Hfirst & Hslash) & _) & _) & Hdot) & Hslash') & _) & _) & _).
  unfold PyStr.splitext_root, PyStr.rfind.
  change (root +:+ "." +:+ ext) with (root +:+ String "." ext).
  rewrite (rfind_from_last "." 0 (-1) root ext Hdot).
  rewrite (rfind_from_absent "/").
  2:{ rewrite has_char_app. cbn [PyStr.has_char]. by rewrite Hslash, Hslash'. }
  destruct root as [|c root]; [done|].
  replace (-1 <? 0 + Z.of_nat (String.length (String c root)))%Z with true
    by (symmetry; apply Z.ltb_lt; lia).
  replace (Z.to_nat (0 + Z.of_nat (String.length (String c root))))
    with (String.length (String c root)) by lia.
  change (Z.to_nat (-1 + 1)) with 0. rewrite Nat.sub_0_r.
  rewrite string_app_cons.
  cbn [String.length PyStr.some_non_dot]. unfold PyStr.not_dot_at.
  cbn [String.get]. rewrite Hfirst. cbn [negb orb].
  change (String c (root +:+ String "." ext))
    with (String c root +:+ String "." ext).
  change (S (String.length root)) with (String.length (String c root)).
  apply take_str_app.
Qed.

(** The name the loop of the controller reads from one line. *)
Lemma unit_line_name root ext rest :
  well_formed_entry (root, ext, rest) = true →
  PyStr.splitext_root (hd "" (PyStr.split " " (unit_line (root, ext, rest)))) = root.
Proof.
  intros Hentry. pose proof Hentry as Hsplit.
  unfold well_formed_entry in Hsplit. rewrite !andb_true_iff, !negb_true_iff in Hsplit.
  destruct Hsplit as ((((((((_ & _) & Hspace) & _) & _) & _) & Hspace') & _) & _).
  unfold unit_line.
  change (root +:+ "." +:+ ext +:+ " " +:+ rest)
    with (root +:+ String "." (ext +:+ String " " rest)).
  replace (root +:+ String "." (ext +:+ String " " rest))
    with ((root +:+ String "." ext) +:+ String " " rest).
  2:{ clear. induction root as [|c root IH].
      - rewrite !string_app_empty. by rewrite string_app_cons.
      - by rewrite !string_app_cons, IH. }
  rewrite split_app_sep.
  - cbn [hd]. by apply splitext_root_unit with rest.
  - rewrite has_char_app. cbn [PyStr.has_char]. by rewrite Hspace, Hspace'.
Qed.

Lemma unit_line_no_newline entry :
  well_formed_entry entry = true →
  PyStr.has_char PyStr.newline (unit_line entry) = false.
Proof.
  destruct entry as [[root ext] rest]. unfold well_formed_entry, unit_line.
  rewrite !andb_true_iff, !negb_true_iff.
  intros ((((((((_ & _) & _) & Hroot) & _) & _) & _) & Hext) & Hrest).
  rewrite !has_char_app. cbn [PyStr.has_char]. by rewrite Hroot, Hext, Hrest.
Qed.

(** X16. A well-formed listing is read back name by name: for the output
    of [systemctl list-unit-files] made of a header line, one line per
    unit file and three footer lines, the controller caches exactly the
    unit file names without their extensions, in the order of the
    listing, whatever the header and the footer say. *)
Theorem well_formed_listing_is_cached env w header entries footer1 footer2 footer3 :
  check_output env ["systemctl"; "list-unit-files"]
  = Ok (unit_listing header entries [footer1; footer2; footer3]) →
  Forall (λ line, PyStr.has_char PyStr.newline line = false)
    [header; footer1; footer2; footer3] →
  Forall (λ entry, well_formed_entry entry = true) entries →
  res_of (fill_services_cache env w) = Ok tt
  ∧ world_of (fill_services_cache env w)
    = World (fs w) (Some ((λ entry, entry.1.1) <$> entries)).
Proof.
  intros Houtput Hframe Hentries.
  rewrite (fill_services_cache_run env w _ Houtput).
  split; [done|]. unfold world_of. cbn [fst snd]. do 2 f_equal.
  unfold unit_names, unit_listing.
  apply Forall_cons in Hframe as [Hheader Hfooter].
  rewrite split_join.
  - unfold PyStr.slice_1_m3.
    replace (List.length (header :: (unit_line <$> entries) ++ [footer1; footer2; footer3]) - 3)
      with (List.length (header :: (unit_line <$> entries))).
    2:{ cbn [List.length]. rewrite List.length_app. simpl. lia. }
    change (header :: (unit_line <$> entries) ++ [footer1; footer2; footer3])
      with ((header :: (unit_line <$> entries)) ++ [footer1; footer2; footer3]).
    rewrite take_app_length. cbn [drop]. rewrite drop_0.
    clear Houtput. induction Hentries as [|[[root ext] rest] entries Hentry _ IH];
      [done|].
    rewrite !fmap_cons. cbv beta. cbn [fst]. rewrite (unit_line_name _ _ _ Hentry).
    rewrite filter_cons_True.
    + by rewrite IH.
    + intros ->. by vm_compute in Hentry.
  - done.
  - apply Forall_cons. split; [done|]. apply Forall_app. split; [|done].
    apply Forall_fmap. eapply Forall_impl; [exact Hentries|].
    intros entry Hentry. by apply unit_line_no_newline.
Qed.

Lemma well_formed_listing_is_cached_witness :
  let entries :=
    [("cron", "service", "             enabled  enabled");
     ("dbus-org.freedesktop.hostname1", "service", " alias -");
     ("tlp", "service", "disabled enabled")] in
  let listing :=
    unit_listing "UNIT FILE STATE PRESET" entries [""; "3 unit files listed."; ""] in
  let machine :=
    {| gettempdir := "/tmp"; which := λ _, None;
       check_output := λ _, Ok listing;
       call_status := λ _, 0%Z; cpu_count := 1;
       uname_release := "6.1.0"; uname_version := "#1 SMP";
       getuid := 0%Z; has_pstates := false |} in
  res_of (fill_services_cache machine (boot ∅)) = Ok tt
  ∧ world_of (fill_services_cache machine (boot ∅))
    = World ∅ (Some ["cron"; "dbus-org.freedesktop.hostname1"; "tlp"]).
Proof.
  intros entries listing machine.
  apply (well_formed_listing_is_cached machine (boot ∅) "UNIT FILE STATE PRESET"
           entries "" "3 unit files listed." "").
  - reflexivity.
  - repeat constructor.
  - repeat constructor.
Defined.

(** X17. A listing of fewer than five lines leaves the cache empty: the
    slice that drops the header and the three footer lines keeps
    nothing, and the controller then takes every service for unknown. *)
Theorem short_listing_caches_nothing env json cli_args self name action w output :
  _available_services_cache w = None →
  check_output env ["systemctl"; "list-unit-files"] = Ok output →
  List.length (PyStr.split PyStr.newline output) ≤ 4 →
  service env json cli_args self name action w
  = (Ok tt, World (fs w) (Some []),
     [EProc ["systemctl"; "list-unit-files"];
      ELog DEBUG "found services []";
      ELog INFO ("service '" +:+ name +:+ "' does not seem to exist")]).
Proof.
  intros Hcache Houtput Hshort.
  assert (unit_names output = []) as Hnone.
  { unfold unit_names, PyStr.slice_1_m3.
    destruct (PyStr.split PyStr.newline output) as [|l1 [|l2 [|l3 [|l4 [|l5 ls]]]]];
      simpl in *; try done. lia. }
  rewrite (service_first_use env json cli_args self name action w output Hcache Houtput).
  - by rewrite Hnone.
  - rewrite Hnone. apply not_elem_of_nil.
Qed.

Lemma short_listing_caches_nothing_witness :
  let machine :=
    {| gettempdir := "/tmp"; which := λ _, None;
       check_output := λ _, Ok "0 unit files listed.";
       call_status := λ _, 0%Z; cpu_count := 1;
       uname_release := "6.1.0"; uname_version := "#1 SMP";
       getuid := 0%Z; has_pstates := false |} in
  service machine python_json (flags false false [] (Some On)) Cron "cron" "stop"
    (boot ∅)
  = (Ok tt, World ∅ (Some []),
     [EProc ["systemctl"; "list-unit-files"];
      ELog DEBUG "found services []";
      ELog INFO "service 'cron' does not seem to exist"]).
Proof.
  intros machine.
  apply (short_listing_caches_nothing machine python_json
           (flags false false [] (Some On)) Cron "cron" "stop" (boot ∅)
           "0 unit files listed.").
  - reflexivity.
  - reflexivity.
  - vm_compute. lia.
Defined.

(** ** The service modules *)

(** The controller with a cache in place, for real: a name in the cache
    goes to [systemctl], any other is reported. *)
Lemma service_cached_run env json cli_args self name action w cache program :
  simulate cli_args = false →
  _available_services_cache w = Some cache →
  which env "systemctl" = Some program →
  service env json cli_args self name action w
  = (Ok tt, w,
     if bool_decide (name ∈ cache) then
       [ELog DEBUG
          ("executing "
           +:+ as_pretty_string subprocess_call
                 [PTuple [PStr program; PStr action; PStr name]]);
        EProc [program; action; name]]
     else [ELog INFO ("service '" +:+ name +:+ "' does not seem to exist")]).
Proof.
  intros Hsim Hcache Hwhich. unfold service.
  rewrite (run_bind_ok _ _ w w w []); [|done]. rewrite Hcache.
  rewrite run_ret_bind.
  rewrite (run_bind_ok _ _ w cache w []).
  2:{ unfold get_services_cache. by rewrite Hcache. }
  case_bool_decide; cbn [negb]; [|done].
  unfold execute_safely. rewrite Hsim, Hwhich. reflexivity.
Qed.

(** X18. For real, with the unit files cached, the cron module stops
    whichever of [cron] and [crond] exists, [cron] first, and
    [rt_settings_off] starts the same ones again: these are all the
    processes the two calls run, and the state is left as it is. *)
Theorem cron_module_acts_on_existing_services env json cli_args w cache program :
  simulate cli_args = false →
  _available_services_cache w = Some cache →
  which env "systemctl" = Some program →
  let commands action :=
    (if bool_decide ("cron" ∈ cache) then [EProc [program; action; "cron"]] else [])
    ++ (if bool_decide ("crond" ∈ cache) then [EProc [program; action; "crond"]] else []) in
  res_of (rt_settings_on env json cli_args Cron w) = Ok tt
  ∧ world_of (rt_settings_on env json cli_args Cron w) = w
  ∧ filter acts (trace_of (rt_settings_on env json cli_args Cron w)) = commands "stop"
  ∧ res_of (rt_settings_off env json cli_args Cron w) = Ok tt
  ∧ world_of (rt_settings_off env json cli_args Cron w) = w
  ∧ filter acts (trace_of (rt_settings_off env json cli_args Cron w)) = commands "start".
Proof.
  intros Hsim Hcache Hwhich commands.
  assert (∀ action,
    (service env json cli_args Cron "cron" action ≫=
       λ _, service env json cli_args Cron "crond" action) w
    = (Ok tt, w,
       trace_of (service env json cli_args Cron "cron" action w)
       ++ trace_of (service env json cli_args Cron "crond" action w))) as Hboth.
  { intros action.
    rewrite (run_bind_ok _ _ _ _ _ _
               (service_cached_run env json cli_args Cron "cron" action w cache program
                  Hsim Hcache Hwhich)).
    by rewrite !(service_cached_run env json cli_args Cron _ action w cache program
                   Hsim Hcache Hwhich). }
  assert (∀ action,
    filter acts (trace_of (service env json cli_args Cron "cron" action w)
                 ++ trace_of (service env json cli_args Cron "crond" action w))
    = commands action) as Hcommands.
  { intros action.
    rewrite !(service_cached_run env json cli_args Cron _ action w cache program
                Hsim Hcache Hwhich).
    unfold commands, trace_of. cbn [snd]. rewrite filter_app.
    by repeat case_bool_decide. }
  cbn [rt_settings_on rt_settings_off]. unfold service_stop, service_start.
  rewrite !Hboth.
  split; [done|]. split; [done|]. split; [exact (Hcommands "stop")|].
  split; [done|]. split; [done|]. exact (Hcommands "start").
Qed.

Lemma cron_module_acts_on_existing_services_witness :
  let cli_args := flags false false [] (Some On) in
  let w := World ∅ (Some ["cron"; "ssh"; "tlp"]) in
  res_of (rt_settings_on desktop python_json cli_args Cron w) = Ok tt
  ∧ world_of (rt_settings_on desktop python_json cli_args Cron w) = w
  ∧ filter acts (trace_of (rt_settings_on desktop python_json cli_args Cron w))
    = [EProc ["/usr/bin/systemctl"; "stop"; "cron"]]
  ∧ res_of (rt_settings_off desktop python_json cli_args Cron w) = Ok tt
  ∧ world_of (rt_settings_off desktop python_json cli_args Cron w) = w
  ∧ filter acts (trace_of (rt_settings_off desktop python_json cli_args Cron w))
    = [EProc ["/usr/bin/systemctl"; "start"; "cron"]].
Proof.
  intros cli_args w.
  apply (cron_module_acts_on_existing_services desktop python_json cli_args w
           ["cron"; "ssh"; "tlp"] "/usr/bin/systemctl"); reflexivity.
Defined.

(** ** A simulated run completes *)

Lemma completes_bind {A B} (m : M A) (k : A → M B) :
  (∀ w, ∃ a, res_of (m w) = Ok a) →
  (∀ a w, ∃ b, res_of (k a w) = Ok b) →
  ∀ w, ∃ b, res_of ((m ≫= k) w) = Ok b.
Proof.
  intros Hm Hk w. destruct (Hm w) as [a Ha].
  destruct (run_bind_res_ok m k w a Ha) as [-> _]. apply Hk.
Qed.

Lemma completes_for_each {A} (l : list A) (body : A → M unit) :
  (∀ x w, ∃ u, res_of (body x w) = Ok u) →
  ∀ w, ∃ u, res_of (for_each l body w) = Ok u.
Proof.
  intros Hbody. induction l as [|x l IH]; intros w; [by eexists|].
  cbn [for_each]. apply completes_bind; [apply Hbody|]. intros _. apply IH.
Qed.

Lemma service_simulated_completes env json cli_args self name action output :
  simulate cli_args = true →
  check_output env ["systemctl"; "list-unit-files"] = Ok output →
  ∀ w, ∃ u, res_of (service env json cli_args self name action w) = Ok u.
Proof.
  intros Hsim Houtput w.
  assert (∀ w1 cache, _available_services_cache w1 = Some cache →
    ∃ u, res_of
      ((cache ← get_services_cache;
        if negb (bool_decide (name ∈ cache)) then
          log INFO ("service '" +:+ name +:+ "' does not seem to exist")
        else
          let systemctl :=
            match which env "systemctl" with
            | Some p => PStr p
            | None => PNone
            end in
          execute_safely env json cli_args self subprocess_call
            [PTuple [systemctl; PStr action; PStr name]];;
          ret tt) w1) = Ok u) as Hrest.
  { intros w1 cache Hcache.
    rewrite (run_bind_ok _ _ w1 cache w1 []).
    2:{ unfold get_services_cache. by rewrite Hcache. }
    destruct (negb _); [by eexists|]. cbv zeta.
    rewrite (run_bind_ok _ _ _ _ _ _ (execute_safely_simulate _ _ _ _ _ _ _ Hsim)).
    by eexists. }
  unfold service. rewrite (run_bind_ok _ _ w w w []); [|done]. cbn [app].
  rewrite run_eta.
  destruct (_available_services_cache w) as [cache|] eqn:Hcache.
  - rewrite run_ret_bind. by apply Hrest with cache.
  - rewrite (run_bind_ok _ _ _ _ _ _ (fill_services_cache_run env w output Houtput)).
    unfold res_of at 1. cbn [fst]. by apply Hrest with (unit_names output).
Qed.

Lemma CheckForRealTimeKernel_on_returns env self w :
  res_of (CheckForRealTimeKernel_on env self w) = Ok tt.
Proof.
  unfold CheckForRealTimeKernel_on.
  assert (∀ w1, res_of
    ((if PyStr.endswith (uname_release env) "+rt" then
        log DEBUG "found +rt in kernel release"
      else if PyStr.contains " RT " (uname_version env) then
        log DEBUG "found RT in kernel version"
      else if PyStr.contains " PREEMPT " (uname_version env) then
        log DEBUG "found PREEMT in kernel version"
      else log WARNING "You don't seem to be using a real-time kernel.") w1)
    = Ok tt) as Hverdict.
  { intros w1.
    destruct (PyStr.endswith _ _); [done|].
    destruct (PyStr.contains " RT " _); [done|].
    by destruct (PyStr.contains " PREEMPT " _). }
  rewrite (run_bind_ok _ _ w _ w [] eq_refl). unfold res_of at 1. cbn [fst].
  destruct (bool_decide (is_Some (fs w !! "/sys/kernel/realtime"))) eqn:Hfile.
  - unfold open_read.
    apply bool_decide_eq_true_1 in Hfile as [text Htext].
    match goal with
    | |- res_of ((?m ≫= ?k) w) = _ =>
        assert (∃ found t, m w = (Ok found, w, t)) as (found & t & Hm)
    end.
    { unfold mbind, M_bind, bind. rewrite Htext.
      destruct (String.eqb _ _); by eexists _, _. }
    rewrite (run_bind_ok _ _ _ _ _ _ Hm). unfold res_of at 1. cbn [fst].
    destruct found; [done|apply Hverdict].
  - rewrite run_ret_bind. apply Hverdict.
Qed.

Lemma FrequencyScaling_copy_simulated env json cli_args source name cpu_num w :
  simulate cli_args = true →
  (source = "CPUFREQ_MAX" ∧ name = "cpuinfo_max_freq")
  ∨ (source = "CPUFREQ_MIN" ∧ name = "cpuinfo_min_freq") →
  res_of (FrequencyScaling_copy env json cli_args FrequencyScaling source cpu_num w)
  = Ok tt.
Proof.
  intros Hsim Hsource. unfold FrequencyScaling_copy.
  rewrite (run_bind_ok _ _ _ _ _ _ (FrequencyScaling_attr_run env source name w
             ltac:(tauto))).
  rewrite (run_bind_ok _ _ _ _ _ _ (FrequencyScaling_attr_run env
             "CPUFREQ_MIN_ALLOWED" "scaling_min_freq" w ltac:(tauto))).
  by rewrite (run_bind_ok _ _ _ _ _ _ (execute_safely_simulate _ _ _ _ _ _ _ Hsim)).
Qed.

Lemma rt_settings_simulated_complete env json cli_args self output :
  simulate cli_args = true →
  check_output env ["systemctl"; "list-unit-files"] = Ok output →
  ∀ w, (∃ u, res_of (rt_settings_on env json cli_args self w) = Ok u)
       ∧ (∃ u, res_of (rt_settings_off env json cli_args self w) = Ok u).
Proof.
  intros Hsim Houtput w.
  pose proof (service_simulated_completes env json cli_args self) as Hservice.
  destruct self; cbn [rt_settings_on rt_settings_off];
    unfold service_stop, service_start.
  - split; by eexists.
  - split; [|by eexists]. eexists. apply CheckForRealTimeKernel_on_returns.
  - split; (apply completes_bind; [|intros _]; intros; by eapply Hservice).
  - split; by eapply Hservice.
  - split; (apply completes_for_each; intros cpu_num w1; eexists;
            by eapply FrequencyScaling_copy_simulated; [|tauto]).
  - split; unfold execute_safely; rewrite Hsim; by eexists.
Qed.

(** X19. A simulated run completes: with [--simulate], without [--list],
    with distinct registered names to ignore, on a machine where
    [systemctl list-unit-files] can be run, the script goes through all
    its modules and ends normally, the missing [which] result and the
    undefined attribute of the turbo-boost module notwithstanding. *)
Theorem simulated_run_completes env json cli_args w output :
  simulate cli_args = true →
  list_ cli_args = false →
  NoDup (ignore cli_args) →
  (∀ name, name ∈ ignore cli_args → name ∈ module_names) →
  check_output env ["systemctl"; "list-unit-files"] = Ok output →
  res_of (main env json cli_args w) = Ok tt
  ∧ exit_status (res_of (main env json cli_args w)) = 0%Z.
Proof.
  intros Hsim Hlist Hnodup Hsub Houtput.
  assert (∃ u, res_of (main env json cli_args w) = Ok u) as [[] ->]; [|done].
  pose proof (λ self, rt_settings_simulated_complete env json cli_args self output
                        Hsim Houtput) as Hmodule.
  destruct (resolve_ignored_run cli_args w) as (left & Hleft & Hresolve).
  rewrite bool_decide_eq_true_2 in Hresolve by by apply Hleft.
  unfold main, list_and_exit. rewrite Hlist, run_ret_bind.
  rewrite (run_bind_ok _ _ _ _ _ _ Hresolve). unfold res_of at 1. cbn [fst].
  unfold run_settings. apply completes_bind.
  - intros w1. destruct (_ && _); by eexists.
  - intros _ w1. destruct (on_or_off cli_args) as [[]|]; [| |by eexists].
    + apply completes_for_each. intros m w2. apply completes_bind; [by eexists|].
      intros _ w3. apply Hmodule.
    + apply completes_for_each. intros m w2. apply completes_bind; [by eexists|].
      intros _ w3. apply Hmodule.
Qed.

Lemma simulated_run_completes_witness :
  res_of (main desktop python_json (flags true false ["Tlp"] (Some Off)) (boot ∅))
  = Ok tt
  ∧ exit_status
      (res_of (main desktop python_json (flags true false ["Tlp"] (Some Off)) (boot ∅)))
    = 0%Z.
Proof.
  apply (simulated_run_completes desktop python_json
           (flags true false ["Tlp"] (Some Off)) (boot ∅) unit_files_output).
  - reflexivity.
  - reflexivity.
  - apply (bool_decide_unpack (NoDup ["Tlp"])). vm_compute. exact I.
  - intros name Hname. apply list_elem_of_singleton in Hname as ->.
    apply (bool_decide_unpack ("Tlp" ∈ module_names)). vm_compute. exact I.
  - reflexivity.
Defined.
